(** * aer-datasets: the dataset abstraction layer

    A shallow embedding of
      - [src/aardt/datasets/AERDataset.py]   (class [AERDataset]: [preload],
        [get_trial_splits]) and
      - [datasets/ascertain/AscertainTrial.py] (class [AscertainTrial]:
        [get_signal_metadata], [load_signal_data], [_load_ecg_signal_data]),
    followed by the properties of these operations.

    Conventions of the embedding.
      - A Python call that may raise returns a [result]; the exceptions that
        the modelled code and its library calls raise are the constructors of
        [exn], with the message (or key) they carry.
      - Python floats are idealised as rationals ([Q]): [np.sum] is the exact
        sum and the literal [1e-4] is [1/10000].
      - [np.int32] values are integers ([Z]) wrapped to 32 bits where the code
        stores into the int32 array.
      - Python sets are [gset]s, dicts are [gmap]s.
      - The file system is reduced to what [preload] reads and writes: the
        status file [.preload.npy] of the dataset's working directory, and the
        data the dataset-specific preparation works on. *)

From Stdlib Require Import ZArith QArith Qround Qabs Lia Lqa.
From stdpp Require Import base gmap sets list strings.

Set Warnings "-clear-no-such-hyp".
Close Scope Q_scope.
Local Open Scope Z_scope.
Local Open Scope string_scope.
Local Open Scope list_scope.

(** ** Python values shared by both classes *)

Module Py.

(** The exceptions raised by the modelled code and by the library calls it
    makes ([np.load], [np.random.choice], dict and array subscripts,
    [scipy.io.loadmat], [datetime]). *)
Inductive exn : Type :=
| ValueError (msg : string)
| KeyError (key : string)
| IndexError (msg : string)
| OSError (msg : string).

Inductive result (A : Type) : Type :=
| Ok (a : A)
| Raise (e : exn).
Arguments Ok {A} a.
Arguments Raise {A} e.

Definition bind {A B : Type} (r : result A) (k : A -> result B) : result B :=
  match r with
  | Ok a => k a
  | Raise e => Raise e
  end.

Definition is_ok {A : Type} (r : result A) : bool :=
  match r with Ok _ => true | Raise _ => false end.

(** [str.format] with one [{}] placeholder at the end of the template. *)
Definition format1 (template arg : string) : string := String.append template arg.

End Py.
Export Py.

Notation "'let*' x ':=' r 'in' k" := (Py.bind r (fun x => k))
(at level 10, x pattern, r at level 100, k at level 200, only parsing).

(** ** AERDataset *)

Module Dataset.

(** Modelled from the spec: the base class [AERTrial] is not part of the
    sources at hand.  The spec (section 3, Trial) gives its attributes: the
    offset-adjusted participant and media identifiers and a mapping from
    signal-type name to a file reference ([_signal_data_files], the name
    under which [AscertainTrial.load_signal_data] reads it). *)
Record AERTrial : Type := {
  participant_id : Z;
  media_id : Z;
  _signal_data_files : gmap string string
}.

(** The attributes set by [AERDataset.__init__]. *)
Record AERDataset : Type := {
  _signals : list string;
  _participant_offset : Z;
  _media_file_offset : Z;
  _participant_ids : gset Z;
  _media_ids : gset Z;
  _all_trials : list AERTrial
}.

(** [AERDataset.__init__]: [signals=None] stands for no signal type; the id
    sets and the trial list start empty. *)
Definition __init__ (signals : option (list string))
    (participant_offset mediafile_offset : Z) : AERDataset :=
  {| _signals := match signals with None => [] | Some signals => signals end;
     _participant_offset := participant_offset;
     _media_file_offset := mediafile_offset;
     _participant_ids := ∅;
     _media_ids := ∅;
     _all_trials := [] |}.

Definition signals (self : AERDataset) : list string := _signals self.
Definition trials (self : AERDataset) : list AERTrial := _all_trials self.
Definition participant_ids (self : AERDataset) : gset Z := _participant_ids self.

(** *** The working directory and the preload status file *)

(** What [np.load] finds in [.preload.npy]: an array of names, as a previous
    [np.save] wrote it, or something it cannot read, with the exception that
    reading it raises. *)
Inductive npy_file : Type :=
| NpyArray (names : list string)
| NpyUnreadable (e : exn).

(** The part of the file system [preload] works on: the status file (absent
    or present) and the dataset-specific data of type [D] that
    [_preload_dataset] prepares. *)
Record World (D : Type) : Type := {
  preload_file : option npy_file;
  prepared : D
}.
Arguments preload_file {D} w.
Arguments prepared {D} w.
Arguments Build_World {D} _ _.

(** The observable actions of [preload], in program order. *)
Inductive event : Type :=
| EvMkdir
| EvPreloadDataset
| EvNpSave (names : list string).

(** State, trace and exception: a computation maps a world to its outcome,
    the world it leaves and the actions it performed. *)
Definition IO (D A : Type) : Type := World D -> result A * World D * list event.

Definition io_ret {D A : Type} (a : A) : IO D A := fun w => (Ok a, w, []).

Definition io_bind {D A B : Type} (m : IO D A) (k : A -> IO D B) : IO D B :=
  fun w =>
    match m w with
    | (Ok a, w1, t1) =>
        match k a w1 with
        | (r, w2, t2) => (r, w2, t1 ++ t2)
        end
    | (Raise e, w1, t1) => (Raise e, w1, t1)
    end.

Definition outcome {D A : Type} (x : result A * World D * list event) : result A :=
  fst (fst x).
Definition world_after {D A : Type} (x : result A * World D * list event) : World D :=
  snd (fst x).
Definition trace {D A : Type} (x : result A * World D * list event) : list event :=
  snd x.

(** The abstract method of the class: the dataset-specific preparation.  It
    works on the prepared data and may raise. *)
Class AERDatasetImpl (D : Type) : Type := {
  _preload_dataset : AERDataset -> D -> result unit * D
}.

(** [get_working_dir]: [path.mkdir(parents=True, exist_ok=True)]. *)
Definition get_working_dir {D : Type} : IO D unit :=
  fun w => (Ok tt, w, [EvMkdir]).

(** [preload_file.exists()]. *)
Definition exists_ {D : Type} : IO D bool :=
  fun w => (Ok (match preload_file w with Some _ => true | None => false end), w, []).

(** [set(np.load(preload_file))]: the names in the file. *)
Definition np_load {D : Type} : IO D (list string) :=
  fun w =>
    match preload_file w with
    | Some (NpyArray names) => (Ok names, w, [])
    | Some (NpyUnreadable e) => (Raise e, w, [])
    | None => (Raise (OSError "No such file or directory"), w, [])
    end.

(** [np.save(preload_file, names)]: creates or overwrites the file. *)
Definition np_save {D : Type} (names : list string) : IO D unit :=
  fun w => (Ok tt, {| preload_file := Some (NpyArray names); prepared := prepared w |},
            [EvNpSave names]).

(** The call [self._preload_dataset()]. *)
Definition call_preload_dataset {D : Type} `{AERDatasetImpl D} (self : AERDataset) : IO D unit :=
  fun w =>
    match _preload_dataset self (prepared w) with
    | (r, d) => (r, {| preload_file := preload_file w; prepared := d |}, [EvPreloadDataset])
    end.

(** [set(self.signals).issubset(preloaded_signals)]. *)
Definition issubset (xs ys : list string) : bool :=
  bool_decide ((list_to_set xs : gset string) ⊆ list_to_set ys).

(** [AERDataset.preload]. *)
Definition preload {D : Type} `{AERDatasetImpl D} (self : AERDataset) : IO D unit :=
  io_bind get_working_dir (fun _ =>
  io_bind exists_ (fun file_exists =>
  io_bind (if file_exists
           then io_bind np_load (fun preloaded_signals =>
                io_ret (issubset (signals self) preloaded_signals))
           else io_ret false) (fun already_preloaded =>
  if already_preloaded
  then io_ret tt
  else io_bind (call_preload_dataset self) (fun _ =>
       np_save (signals self))))).

(** Calling [preload] twice in succession. *)
Definition preload_twice {D : Type} `{AERDatasetImpl D} (self : AERDataset) : IO D unit :=
  io_bind (preload self) (fun _ => preload self).

(** [n] calls of [preload] in succession, alternating between two instances
    of the class, starting with [self]. *)
Fixpoint preload_alternating {D : Type} `{AERDatasetImpl D} (self other : AERDataset)
    (n : nat) : IO D unit :=
  match n with
  | O => io_ret tt
  | S n' => io_bind (preload self) (fun _ => preload_alternating other self n')
  end.

(** The status file is [readable] when it is absent or holds an array. *)
Definition readable {D : Type} (w : World D) : Prop :=
  forall e, preload_file w ≠ Some (NpyUnreadable e).

(** The status file [covers] an instance when it exists and lists every
    signal type of the instance. *)
Definition covers {D : Type} (w : World D) (self : AERDataset) : Prop :=
  exists names, preload_file w = Some (NpyArray names)
    ∧ (list_to_set (signals self) : gset string) ⊆ list_to_set names.

#[global] Instance event_eq_dec : EqDecision event.
Proof. solve_decision. Defined.

(** The number of calls of [_preload_dataset] and of [get_working_dir] (one
    per call of [preload]) in a trace, and the trace being free of writes
    to the status file. *)
Definition preparations (t : list event) : nat :=
  length (filter (fun ev => ev = EvPreloadDataset) t).
Definition preload_calls (t : list event) : nat :=
  length (filter (fun ev => ev = EvMkdir) t).
Definition no_save (t : list event) : Prop :=
  forall names, EvNpSave names ∉ t.

(** Two selections are disjoint when they share no signal type. *)
Definition disjoint_selections (self other : AERDataset) : Prop :=
  (list_to_set (signals self) : gset string) ## list_to_set (signals other).

(** A run of [preload] is a no-op when it neither calls the preparation
    routine nor writes the status file. *)
Definition no_op {D A : Type} (x : result A * World D * list event) : Prop :=
  (EvPreloadDataset ∉ trace x) ∧ no_save (trace x).

(** Every run of [preload] is one of four: the status file is unreadable,
    the status file covers the selection, the preparation returns, or the
    preparation raises. *)
Inductive preload_run {D : Type} `{AERDatasetImpl D} (self : AERDataset) (w : World D)
    : result unit * World D * list event -> Prop :=
| run_unreadable e :
    preload_file w = Some (NpyUnreadable e) ->
    preload_run self w (Raise e, w, [EvMkdir])
| run_covered :
    covers w self ->
    preload_run self w (Ok tt, w, [EvMkdir])
| run_prepared d :
    readable w -> ~ covers w self ->
    _preload_dataset self (prepared w) = (Ok tt, d) ->
    preload_run self w
      (Ok tt, {| preload_file := Some (NpyArray (signals self)); prepared := d |},
       [EvMkdir; EvPreloadDataset; EvNpSave (signals self)])
| run_failed e d :
    readable w -> ~ covers w self ->
    _preload_dataset self (prepared w) = (Raise e, d) ->
    preload_run self w
      (Raise e, {| preload_file := preload_file w; prepared := d |},
       [EvMkdir; EvPreloadDataset]).

(** *** Participant-based splits *)

(** A value stored into an [np.int32] array.  A float inside the int32
    range is cast by truncation; outside it the cast result depends on the
    platform, and the model takes the wrapped value.  Integer stores into
    the array wrap. *)
Definition int32 (z : Z) : Z := (z + 2 ^ 31) mod 2 ^ 32 - 2 ^ 31.

(** [np.sum(splits)] and the builtin [sum] over the int32 counts. *)
Definition np_sum (splits : list Q) : Q := foldr Qplus 0%Q splits.
Definition sum (counts : list Z) : Z := foldr Z.add 0 counts.

(** [x > y] on floats. *)
Definition Qgtb (x y : Q) : bool := negb (Qle_bool x y).

(** The cast of a float to an integer type truncates towards zero. *)
Definition Qtruncate (x : Q) : Z := Z.quot (Qnum x) (Zpos (Qden x)).

(** [(np.array(splits) * n).astype(dtype=np.int32)]. *)
Definition astype_int32 (splits : list Q) (n : Z) : list Z :=
  map (fun f => int32 (Qtruncate (f * inject_Z n))) splits.

(** The conversion of the fractions into participant counts, with the
    correction of the first count:
    [if sum(splits) != n: splits[0] += n - sum(splits)].
    The array is not empty here: an empty [splits] sums to 0 and has failed
    the validation. *)
Definition participant_counts (splits : list Q) (n : Z) : list Z :=
  let counts := astype_int32 splits n in
  if bool_decide (sum counts ≠ n)
  then match counts with
       | c0 :: rest => int32 (c0 + (n - sum counts)) :: rest
       | [] => []
       end
  else counts.

(** The random source: [rng i a] is the permutation of the population [a]
    that [np.random] produces at its [i]-th use. *)
Definition Rng : Type := nat -> list Z -> list Z.

Definition rng_valid (rng : Rng) : Prop := forall i a, rng i a ≡ₚ a.

(** [np.random.choice(a, size, False)]: the first [size] entries of a
    random permutation of [a], after the checks numpy makes on the population
    and on [size], in numpy's order. *)
Definition random_choice (rng : Rng) (i : nat) (a : list Z) (size : Z) : result (list Z) :=
  if bool_decide (a = [] ∧ size ≠ 0)
  then Raise (ValueError "'a' cannot be empty unless no samples are taken")
  else if bool_decide (Z.of_nat (length a) < size)
  then Raise (ValueError "Cannot take a larger sample than population when 'replace=False'")
  else if bool_decide (size < 0)
  then Raise (ValueError "negative dimensions are not allowed")
  else Ok (take (Z.to_nat size) (rng i a)).

(** The loop that draws the participant groups: at step [i] it draws
    [splits[i]] participants from the pool [all_ids], appends them to
    [participant_splits] and removes every participant drawn so far from
    the pool. *)
Fixpoint draw_participant_splits (rng : Rng) (i : nat) (counts : list Z)
    (all_ids : gset Z) (participant_splits : list (list Z)) : result (list (list Z)) :=
  match counts with
  | [] => Ok participant_splits
  | c :: counts' =>
      let* chosen := random_choice rng i (elements all_ids) c in
      let participant_splits' := participant_splits ++ [chosen] in
      draw_participant_splits rng (S i) counts'
        (all_ids ∖ list_to_set (concat participant_splits')) participant_splits'
  end.

(** [[trial for trial in self.trials if trial.participant_id in participant_split]]. *)
Definition trials_of (self : AERDataset) (participant_split : list Z) : list AERTrial :=
  filter (fun trial => participant_id trial ∈ participant_split) (trials self).

(** What [get_trial_splits] returns: the list of all trials, or a list of
    lists of trials. *)
Inductive trial_splits : Type :=
| AllTrials (all_trials : list AERTrial)
| TrialSplits (groups : list (list AERTrial)).

Definition splits_error : exn := ValueError "Splits must sum to be 1.0".

(** [if splits is None: splits = [1]]. *)
Definition splits_or_default (splits : option (list Q)) : list Q :=
  match splits with
  | None => [1%Q]
  | Some splits => splits
  end.

(** [AERDataset.get_trial_splits]. *)
Definition get_trial_splits (self : AERDataset) (splits : option (list Q)) (rng : Rng)
    : result trial_splits :=
  let splits := splits_or_default splits in
  if Qgtb (Qabs (1 - np_sum splits)) (1 # 10000)
  then Raise splits_error
  else if bool_decide (length splits = 1%nat)
  then Ok (AllTrials (_all_trials self))
  else
    let n := Z.of_nat (size (participant_ids self)) in
    let counts := participant_counts splits n in
    let* participant_splits :=
      draw_participant_splits rng 0 counts (participant_ids self) [] in
    Ok (TrialSplits (map (trials_of self) participant_splits)).

(** The proportional count of each group before the cast to int32: the
    fraction of the [n] participants, truncated. *)
Definition proportional_counts (splits : list Q) (n : Z) : list Z :=
  map (fun f => Qtruncate (f * inject_Z n)) splits.

(** The sizes of the groups of a split. *)
Definition sizes {A : Type} (groups : list (list A)) : list Z :=
  map (fun g => Z.of_nat (length g)) groups.

(** No participant is in two groups. *)
Definition pairwise_disjoint (groups : list (list Z)) : Prop :=
  forall i j g h, i ≠ j -> groups !! i = Some g -> groups !! j = Some h ->
    forall x, x ∈ g -> x ∉ h.

(** The participants of the groups, taken together. *)
Definition union_of (groups : list (list Z)) : gset Z :=
  list_to_set (concat groups).

End Dataset.
Export Dataset.

(** ** AscertainTrial *)

Module Ascertain.

Definition ASCERTAIN_ECG_SAMPLE_RATE : Z := 256.
Definition ASCERTAIN_ECG_N_CHANNELS : Z := 2.

(** A two-dimensional numpy array, as the list of its rows (all of one
    length). *)
Definition ndarray : Type := list (list Q).

(** [a.shape[1]] of a two-dimensional array. *)
Definition shape1 (a : ndarray) : nat := length (hd [] a).

(** What [scipy.io.loadmat] returns: a dict from variable name to array. *)
Definition matfile : Type := gmap string ndarray.

(** The [.mat] files on disk, by path. *)
Definition mat_files : Type := gmap string matfile.

(** [scipy.io.loadmat(path)]. *)
Definition loadmat (disk : mat_files) (path : string) : result matfile :=
  match disk !! path with
  | Some m => Ok m
  | None => Raise (OSError "No such file or directory")
  end.

(** The two library operations on dates that [_load_ecg_signal_data] uses:
    the constructor [datetime(year, month, day, hour, minute, second,
    microsecond)], which raises on an invalid date, and
    [(start + timedelta(milliseconds=ts)).timestamp()], whose value depends
    on the local time zone. *)
Class PyDatetime : Type := {
  datetime : Type;
  new_datetime : Z -> Z -> Z -> Z -> Z -> Z -> Z -> result datetime;
  convert_to_epoch : Q -> datetime -> result Q
}.

(** The instance attributes: those of the base class and the cached
    duration of the ECG signal. *)
Record AscertainTrial : Type := {
  base : AERTrial;
  _ecg_signal_duration : option Q
}.

(** [AscertainTrial.__init__]. *)
Definition __init__ (participant_id movie_id : Z) : AscertainTrial :=
  {| base := {| participant_id := participant_id; media_id := movie_id;
                _signal_data_files := ∅ |};
     _ecg_signal_duration := None |}.

(** The dict of [get_signal_metadata]. *)
Record signal_metadata : Type := {
  signal_type : string;
  sample_rate : Z;
  n_channels : Z;
  duration : option Q
}.

(** [AscertainTrial.get_signal_metadata]: the dict for ['ECG'], [None] for
    any other signal type. *)
Definition get_signal_metadata (self : AscertainTrial) (signal_type : string)
    : option signal_metadata :=
  if bool_decide (signal_type = "ECG")
  then Some {| signal_type := signal_type;
               sample_rate := ASCERTAIN_ECG_SAMPLE_RATE;
               n_channels := ASCERTAIN_ECG_N_CHANNELS;
               duration := _ecg_signal_duration self |}
  else None.

Definition load_ground_truth (self : AscertainTrial) : Z := 0.

(** Subscripts: [d[key]] on a dict, [a[i]] on a sequence. *)
Definition getitem {V : Type} (d : gmap string V) (key : string) : result V :=
  match d !! key with
  | Some v => Ok v
  | None => Raise (KeyError key)
  end.

Definition index {A : Type} (a : list A) (i : nat) : result A :=
  match a !! i with
  | Some x => Ok x
  | None => Raise (IndexError "index out of bounds")
  end.

(** [xs[:, cols]]: the chosen columns of every row. *)
Fixpoint mapM {A B : Type} (f : A -> result B) (l : list A) : result (list B) :=
  match l with
  | [] => Ok []
  | x :: l' => let* y := f x in let* ys := mapM f l' in Ok (y :: ys)
  end.

Definition take_columns (a : ndarray) (cols : list nat) : result ndarray :=
  mapM (fun row => mapM (index row) cols) a.

(** [a[:, j]] for a column known to exist in every row. *)
Definition column (a : ndarray) (j : nat) : list Q :=
  map (fun row => nth j row 0%Q) a.

(** [x % 1] on a float. *)
Definition mod1 (x : Q) : Q := (x - inject_Z (Qfloor x))%Q.

Definition int (x : Q) : Z := Qtruncate x.

(** [AscertainTrial._load_ecg_signal_data]: the rows of the result are the
    timestamps and the two selected channels. *)
Definition _load_ecg_signal_data `{PyDatetime} (signal_data_file : matfile) : result ndarray :=
  let* timeECG := getitem signal_data_file "timeECG" in
  let* start_time_arr := index timeECG 0 in
  let* t0 := index start_time_arr 0 in
  let* t1 := index start_time_arr 1 in
  let* t2 := index start_time_arr 2 in
  let* t3 := index start_time_arr 3 in
  let* t4 := index start_time_arr 4 in
  let* t5 := index start_time_arr 5 in
  let* start_time :=
    new_datetime (int t0) (int t1) (int t2) (int t3) (int t4) (int t5)
                 (int (1000 * mod1 t5)) in
  let timeconverter := fun _ts => convert_to_epoch _ts start_time in
  let* ecg_data := getitem signal_data_file "Data_ECG" in
  let* row0 := index ecg_data 0 in
  let left_arm_idx := if bool_decide (length row0 < 6)%nat then 1%nat else 4%nat in
  let right_arm_idx := if bool_decide (length row0 < 6)%nat then 2%nat else 5%nat in
  let* ecg := take_columns ecg_data [0%nat; left_arm_idx; right_arm_idx] in
  let* ts := mapM timeconverter (column ecg 0) in
  Ok [ts; column ecg 1; column ecg 2].

(** The first statements of [_load_ecg_signal_data] on their own: the
    [start_time] built from the first row of [timeECG]. *)
Definition recording_start `{PyDatetime} (signal_data_file : matfile) : result datetime :=
  let* timeECG := getitem signal_data_file "timeECG" in
  let* start_time_arr := index timeECG 0 in
  let* t0 := index start_time_arr 0 in
  let* t1 := index start_time_arr 1 in
  let* t2 := index start_time_arr 2 in
  let* t3 := index start_time_arr 3 in
  let* t4 := index start_time_arr 4 in
  let* t5 := index start_time_arr 5 in
  new_datetime (int t0) (int t1) (int t2) (int t3) (int t4) (int t5)
               (int (1000 * mod1 t5)).

(** The columns of the two ECG channels in a recording whose rows have
    [width] entries: [1 if (len(ecg_data[0]) < 6) else 4] and
    [2 if (len(ecg_data[0]) < 6) else 5]. *)
Definition left_arm_idx (width : nat) : nat :=
  if bool_decide (width < 6)%nat then 1%nat else 4%nat.
Definition right_arm_idx (width : nat) : nat :=
  if bool_decide (width < 6)%nat then 2%nat else 5%nat.

Definition _load_gsr_signal_data (signal_data_file : matfile) : ndarray := [].
Definition _load_eeg_signal_data (signal_data_file : matfile) : ndarray := [].

Definition not_implemented (signal_type : string) : exn :=
  ValueError (format1 "_load_signal_data not implemented for signal type " signal_type).

(** [AscertainTrial.load_signal_data]: the result and the trial after the
    call. *)
Definition load_signal_data `{PyDatetime} (disk : mat_files) (self : AscertainTrial)
    (signal_type : string) : result ndarray * AscertainTrial :=
  match getitem (_signal_data_files (base self)) signal_type with
  | Raise e => (Raise e, self)
  | Ok signal_data_file =>
      match loadmat disk signal_data_file with
      | Raise e => (Raise e, self)
      | Ok matfile =>
          if bool_decide (signal_type = "ECG") then
            match _load_ecg_signal_data matfile with
            | Raise e => (Raise e, self)
            | Ok data =>
                (Ok data,
                 {| base := base self;
                    _ecg_signal_duration :=
                      Some (Z.of_nat (shape1 data) # 256)%Q |})
            end
          else if bool_decide (signal_type = "GSR") then
            (Ok (_load_gsr_signal_data matfile), self)
          else if bool_decide (signal_type = "EEG") then
            (Ok (_load_eeg_signal_data matfile), self)
          else (Raise (not_implemented signal_type), self)
      end
  end.

(** The array of a successful load. *)
Definition loaded (r : result ndarray) : ndarray :=
  match r with
  | Ok data => data
  | Raise _ => []
  end.

(** The signal types that [load_signal_data] has a branch for. *)
Definition supported (signal_type : string) : Prop :=
  signal_type = "ECG" ∨ signal_type = "GSR" ∨ signal_type = "EEG".

(** The calls a client makes on a trial; [AssignSignalDataFile] is the
    assignment [trial._signal_data_files[signal_type] = path] by which the
    dataset registers a file. *)
Inductive call : Type :=
| AssignSignalDataFile (signal_type path : string)
| LoadGroundTruth
| GetSignalMetadata (signal_type : string)
| LoadSignalData (signal_type : string).

Definition after_call `{PyDatetime} (disk : mat_files) (self : AscertainTrial) (c : call)
    : AscertainTrial :=
  match c with
  | AssignSignalDataFile signal_type path =>
      {| base := {| participant_id := participant_id (base self);
                    media_id := media_id (base self);
                    _signal_data_files :=
                      <[signal_type := path]> (_signal_data_files (base self)) |};
         _ecg_signal_duration := _ecg_signal_duration self |}
  | LoadGroundTruth => self
  | GetSignalMetadata _ => self
  | LoadSignalData signal_type => snd (load_signal_data disk self signal_type)
  end.

Definition after_calls `{PyDatetime} (disk : mat_files) (self : AscertainTrial)
    (cs : list call) : AscertainTrial :=
  foldl (after_call disk) self cs.

End Ascertain.

(** ** Concrete datasets, worlds and trials *)

Module Examples.

(** A preparation routine that succeeds and counts its runs, and one that
    fails after having started its work. *)
Definition counting_impl : AERDatasetImpl nat :=
  {| _preload_dataset := fun _ d => (Ok tt, S d) |}.

Definition failing_impl : AERDatasetImpl nat :=
  {| _preload_dataset := fun _ d => (Raise (OSError "raw recordings not found"), S d) |}.

(** A dataset instance that selects the given signal types and has no
    trials loaded. *)
Definition selecting (signals : list string) : AERDataset :=
  {| _signals := signals; _participant_offset := 0; _media_file_offset := 0;
     _participant_ids := ∅; _media_ids := ∅; _all_trials := [] |}.

Definition fresh_world : World nat :=
  {| preload_file := None; prepared := 0%nat |}.

Definition world_with (names : list string) : World nat :=
  {| preload_file := Some (NpyArray names); prepared := 1%nat |}.

Definition pickle_error : exn :=
  ValueError "Cannot load file containing pickled data when allow_pickle=False".

Definition truncated_error : exn :=
  OSError "Failed to interpret file as a pickle".

Definition world_unreadable (e : exn) : World nat :=
  {| preload_file := Some (NpyUnreadable e); prepared := 1%nat |}.

(** A dataset with the participants [1 .. n] and one trial for each, and
    two random sources: one that leaves the population in its order and one
    that reverses it. *)
Definition trial_of (participant : Z) : AERTrial :=
  {| participant_id := participant; media_id := 1; _signal_data_files := ∅ |}.

Definition with_participants (n : nat) : AERDataset :=
  {| _signals := ["ECG"]; _participant_offset := 0; _media_file_offset := 0;
     _participant_ids := list_to_set (map Z.of_nat (seq 1 n));
     _media_ids := {[ 1 ]};
     _all_trials := map (fun i => trial_of (Z.of_nat i)) (seq 1 n) |}.

Definition in_order : Rng := fun _ a => a.
Definition reversed : Rng := fun _ a => rev a.

(** A clock for the examples: it checks the month and the day of the start
    time and counts the seconds since the midnight before the recording. *)
Definition recording_clock : Ascertain.PyDatetime :=
  {| Ascertain.datetime := Q;
     Ascertain.new_datetime := fun year month day hour minute second microsecond =>
       if bool_decide (1 <= month <= 12 /\ 1 <= day <= 31)
       then Ok (inject_Z (hour * 3600 + minute * 60 + second)
                + inject_Z microsecond / 1000000)%Q
       else Raise (ValueError "day is out of range for month");
     Ascertain.convert_to_epoch := fun ts start => Ok (start + ts / 1000)%Q |}.

(** A recording of [n] ECG samples in the seven-column layout, 1000/256 ms
    apart, that starts on 2 January 2020 at 03:04:05.5. *)
Definition ecg_recording (n : nat) : Ascertain.matfile :=
  {[ "timeECG" := [[2020; 1; 2; 3; 4; 11 # 2]%Q];
     "Data_ECG" := map (fun i => [inject_Z (Z.of_nat i) * (1000 # 256);
                                  0; 0; 0; 1 # 10; - (1 # 5); 0]%Q) (seq 0 n) ]}.

Definition ascertain_disk : Ascertain.mat_files :=
  {[ "Movie_P01/ECG_Clip1.mat" := ecg_recording 2560 ]}.

(** Recordings that do not load: one without samples, and one whose rows
    have two columns only. *)
Definition empty_recording : Ascertain.matfile :=
  {[ "timeECG" := [[2020; 1; 2; 3; 4; 11 # 2]%Q]; "Data_ECG" := [] ]}.

Definition narrow_recording : Ascertain.matfile :=
  {[ "timeECG" := [[2020; 1; 2; 3; 4; 11 # 2]%Q];
     "Data_ECG" := [[0; 1 # 10]; [4; 1 # 5]]%Q ]}.

(** A short recording in the three-column layout. *)
Definition short_recording : Ascertain.matfile :=
  {[ "timeECG" := [[2020; 1; 2; 3; 4; 11 # 2]%Q];
     "Data_ECG" := [[0; 1 # 10; 1 # 20]; [4; 1 # 5; - (1 # 20)]]%Q ]}.

(** A trial for which the dataset has registered the ECG file only. *)
Definition ecg_trial : Ascertain.AscertainTrial :=
  Ascertain.after_call (H := recording_clock) ascertain_disk (Ascertain.__init__ 1 1)
    (Ascertain.AssignSignalDataFile "ECG" "Movie_P01/ECG_Clip1.mat").

End Examples.

(** * Properties *)

(** ** The preload status file *)

Section PreloadProperties.
Context {D : Type} `{AERDatasetImpl D}.
Implicit Types (self : AERDataset) (w : World D).

Lemma issubset_true xs ys :
  issubset xs ys = true <-> (list_to_set xs : gset string) ⊆ list_to_set ys.
Proof. unfold issubset. apply bool_decide_eq_true. Qed.

Lemma covers_array w self names :
  preload_file w = Some (NpyArray names) ->
  covers w self <-> issubset (signals self) names = true.
Proof.
  intros Hf. rewrite issubset_true. split.
  - intros (names' & Hf' & Hsub). rewrite Hf in Hf'.
    injection Hf' as ->. exact Hsub.
  - intros Hsub. exists names. auto.
Qed.

(** The three ways through [preload]. *)
Lemma preload_unreadable self w e :
  preload_file w = Some (NpyUnreadable e) ->
  preload self w = (Raise e, w, [EvMkdir]).
Proof.
  intros Hf. unfold preload, io_bind, get_working_dir, exists_, np_load.
  simpl. rewrite ?Hf. simpl. rewrite ?Hf. reflexivity.
Qed.

Lemma preload_covered self w :
  covers w self -> preload self w = (Ok tt, w, [EvMkdir]).
Proof.
  intros (names & Hf & Hsub).
  unfold preload, io_bind, get_working_dir, exists_, np_load, io_ret.
  simpl. rewrite ?Hf. simpl. rewrite ?Hf.
  apply issubset_true in Hsub. rewrite Hsub. reflexivity.
Qed.

Lemma preload_needed self w :
  readable w -> ~ covers w self ->
  preload self w =
    match _preload_dataset self (prepared w) with
    | (Ok _, d) =>
        (Ok tt, {| preload_file := Some (NpyArray (signals self)); prepared := d |},
         [EvMkdir; EvPreloadDataset; EvNpSave (signals self)])
    | (Raise e, d) =>
        (Raise e, {| preload_file := preload_file w; prepared := d |},
         [EvMkdir; EvPreloadDataset])
    end.
Proof.
  intros Hr Hn.
  unfold preload, io_bind, get_working_dir, exists_, np_load, io_ret,
    call_preload_dataset, np_save.
  simpl.
  destruct (preload_file w) as [[names | e] | ] eqn:Hf; simpl; rewrite ?Hf; simpl.
  - destruct (issubset (signals self) names) eqn:Hs.
    + exfalso. apply Hn. eapply covers_array; eauto.
    + rewrite Hf.
      destruct (_preload_dataset self (prepared w)) as [[[]|e] d]; reflexivity.
  - exfalso. eapply Hr; eauto.
  - destruct (_preload_dataset self (prepared w)) as [[[]|e] d]; reflexivity.
Qed.

Lemma covers_dec w self : covers w self \/ ~ covers w self.
Proof.
  destruct (preload_file w) as [[names | e] | ] eqn:Hf.
  - destruct (issubset (signals self) names) eqn:Hs.
    + left. eapply covers_array; eauto.
    + right. intros Hc. eapply covers_array in Hc; eauto. congruence.
  - right. intros (names & Hf' & _). congruence.
  - right. intros (names & Hf' & _). congruence.
Qed.

Lemma covers_own_marker self (d : D) :
  covers {| preload_file := Some (NpyArray (signals self)); prepared := d |} self.
Proof. exists (signals self). split; [reflexivity | set_solver]. Qed.

Lemma not_covers_after self other (d : D) :
  ~ (list_to_set (signals other) : gset string) ⊆ list_to_set (signals self) ->
  ~ covers {| preload_file := Some (NpyArray (signals self)); prepared := d |} other.
Proof.
  intros Hn (names & Hf & Hsub). simpl in Hf. injection Hf as <-. auto.
Qed.

Lemma readable_array names (d : D) :
  readable {| preload_file := Some (NpyArray names); prepared := d |}.
Proof. intros e. simpl. discriminate. Qed.

Lemma readable_keep w (d : D) :
  readable w -> readable {| preload_file := preload_file w; prepared := d |}.
Proof. intros Hr e. apply Hr. Qed.

Lemma not_covers_keep w (d : D) self :
  ~ covers w self -> ~ covers {| preload_file := preload_file w; prepared := d |} self.
Proof. intros Hn (names & Hf & Hsub). apply Hn. exists names. auto. Qed.

Lemma io_bind_ok {A B : Type} (m : IO D A) (k : A -> IO D B) w a w1 t1 :
  m w = (Ok a, w1, t1) ->
  io_bind m k w = (outcome (k a w1), world_after (k a w1), t1 ++ trace (k a w1)).
Proof.
  intros Hm. unfold io_bind. rewrite Hm.
  destruct (k a w1) as [[r w2] t2]. reflexivity.
Qed.

Lemma io_bind_raise {A B : Type} (m : IO D A) (k : A -> IO D B) w e w1 t1 :
  m w = (Raise e, w1, t1) -> io_bind m k w = (Raise e, w1, t1).
Proof. intros Hm. unfold io_bind. rewrite Hm. reflexivity. Qed.

Lemma trace_triple {A : Type} (r : result A) w (t : list event) :
  trace (r, w, t) = t.
Proof. reflexivity. Qed.

Lemma not_in_mkdir (ev : event) : ev ≠ EvMkdir -> ev ∉ [EvMkdir].
Proof. intros Hne Hin. apply list_elem_of_singleton in Hin. auto. Qed.

Lemma no_op_mkdir {A : Type} (r : result A) w : no_op (r, w, [EvMkdir]).
Proof.
  split; simpl.
  - apply not_in_mkdir. discriminate.
  - intros names. apply not_in_mkdir. discriminate.
Qed.

Lemma preparations_app t1 t2 :
  preparations (t1 ++ t2) = (preparations t1 + preparations t2)%nat.
Proof. unfold preparations. rewrite filter_app, length_app. reflexivity. Qed.

Lemma preload_calls_app t1 t2 :
  preload_calls (t1 ++ t2) = (preload_calls t1 + preload_calls t2)%nat.
Proof. unfold preload_calls. rewrite filter_app, length_app. reflexivity. Qed.

Lemma preload_runs self w : preload_run self w (preload self w).
Proof.
  destruct (preload_file w) as [[names | e] | ] eqn:Hf.
  - assert (Hr : readable w) by (intros e; rewrite Hf; discriminate).
    destruct (covers_dec w self) as [Hc | Hc].
    + rewrite (preload_covered self w Hc). constructor. exact Hc.
    + rewrite (preload_needed self w Hr Hc).
      destruct (_preload_dataset self (prepared w)) as [[[]|e] d] eqn:Hp.
      * apply run_prepared; assumption.
      * apply run_failed; assumption.
  - rewrite (preload_unreadable self w e Hf). constructor. exact Hf.
  - assert (Hr : readable w) by (intros e; rewrite Hf; discriminate).
    assert (Hc : ~ covers w self) by (intros (names & Hf' & _); congruence).
    rewrite (preload_needed self w Hr Hc).
    destruct (_preload_dataset self (prepared w)) as [[[]|e] d] eqn:Hp.
    + apply run_prepared; assumption.
    + apply run_failed; assumption.
Qed.

Lemma unreadable_not_covers w self e :
  preload_file w = Some (NpyUnreadable e) -> ~ covers w self.
Proof. intros Hf (names & Hf' & _). congruence. Qed.

Lemma unreadable_not_readable w e :
  preload_file w = Some (NpyUnreadable e) -> ~ readable w.
Proof. intros Hf Hr. apply (Hr e Hf). Qed.

Lemma preload_ok_covers self w w1 t1 :
  preload self w = (Ok tt, w1, t1) -> covers w1 self.
Proof.
  intros Heq. pose proof (preload_runs self w) as Hrun. rewrite Heq in Hrun.
  inversion Hrun; subst.
  - assumption.
  - apply covers_own_marker.
Qed.

Lemma preload_prepares_at_most_once self w :
  (preparations (trace (preload self w)) <= 1)%nat.
Proof.
  destruct (preload_runs self w); simpl; vm_compute; lia.
Qed.

(** C2 (as amended).  For every instance and every state of the status
    file in which the file is absent or readable: [preload] is a no-op (no
    call of the preparation routine, no write of the status file) if and
    only if the file exists and lists every signal type of the instance's
    selection; otherwise [preload] calls the preparation routine on the
    current data and, when the routine returns, overwrites the status file
    with the selection (when it raises, the exception propagates and nothing
    is written). *)
Theorem preload_noop_iff_covers self w :
  readable w ->
  (no_op (preload self w) <-> covers w self) /\
  (~ covers w self ->
     preload self w =
       match _preload_dataset self (prepared w) with
       | (Ok _, d) =>
           (Ok tt, {| preload_file := Some (NpyArray (signals self)); prepared := d |},
            [EvMkdir; EvPreloadDataset; EvNpSave (signals self)])
       | (Raise e, d) =>
           (Raise e, {| preload_file := preload_file w; prepared := d |},
            [EvMkdir; EvPreloadDataset])
       end).
Proof.
  intros Hr. split.
  - split.
    + intros [Hnp _]. destruct (covers_dec w self) as [Hc | Hc]; [exact Hc |].
      exfalso. apply Hnp. rewrite (preload_needed self w Hr Hc).
      destruct (_preload_dataset self (prepared w)) as [[[]|e] d]; simpl;
        apply list_elem_of_further, list_elem_of_here.
    + intros Hc. rewrite (preload_covered self w Hc). apply no_op_mkdir.
  - intros Hn. apply preload_needed; assumption.
Qed.

(** C5.  Calling [preload] twice in succession on one instance calls the
    preparation routine at most once, and whenever the first call returns,
    the second one is a no-op: it returns without calling the routine or
    writing the status file, and leaves the world as it found it. *)
Theorem preload_twice_prepares_once self w :
  (preparations (trace (preload_twice self w)) <= 1)%nat /\
  (forall w1 t1, preload self w = (Ok tt, w1, t1) ->
     preload self w1 = (Ok tt, w1, [EvMkdir]) /\ no_op (preload self w1)).
Proof.
  assert (Hnoop : forall w1 t1, preload self w = (Ok tt, w1, t1) ->
            preload self w1 = (Ok tt, w1, [EvMkdir]) /\ no_op (preload self w1)).
  { intros w1 t1 Heq. apply preload_ok_covers in Heq.
    rewrite (preload_covered self w1 Heq). split; [reflexivity | apply no_op_mkdir]. }
  split; [| exact Hnoop].
  pose proof (preload_prepares_at_most_once self w) as Hle.
  unfold preload_twice.
  destruct (preload self w) as [[[[] | e] w1] t1] eqn:Heq.
  - rewrite (io_bind_ok _ _ _ _ _ _ Heq).
    destruct (Hnoop w1 t1 eq_refl) as [-> _]. simpl in *.
    rewrite preparations_app. change (preparations [EvMkdir]) with 0%nat. lia.
  - rewrite (io_bind_raise _ _ _ _ _ _ Heq). exact Hle.
Qed.

(** C6.  If the preparation routine called by [preload] raises, [preload]
    raises the same exception, the status file is as it was before the call
    and the run contains no write of it.  The status file is written only
    after the routine has returned: a run that writes it is a run in which
    the routine returned, and the write is the last action, after the call. *)
Theorem preload_failure_keeps_marker self w :
  (forall e, EvPreloadDataset ∈ trace (preload self w) ->
     fst (_preload_dataset self (prepared w)) = Raise e ->
     outcome (preload self w) = Raise e
     /\ preload_file (world_after (preload self w)) = preload_file w
     /\ no_save (trace (preload self w)))
  /\
  (forall names, EvNpSave names ∈ trace (preload self w) ->
     fst (_preload_dataset self (prepared w)) = Ok tt
     /\ outcome (preload self w) = Ok tt
     /\ trace (preload self w) = [EvMkdir; EvPreloadDataset; EvNpSave names]).
Proof.
  split.
  - intros e Hin Hraise.
    destruct (preload_runs self w) as [e' Hf | Hc | d Hr Hc Hp | e' d Hr Hc Hp];
      simpl in *.
    + exfalso. revert Hin. apply not_in_mkdir. discriminate.
    + exfalso. revert Hin. apply not_in_mkdir. discriminate.
    + rewrite Hp in Hraise. discriminate.
    + rewrite Hp in Hraise. simpl in Hraise. injection Hraise as ->.
      split; [reflexivity |]. split; [reflexivity |].
      intros names Hs. inversion Hs as [| ? ? ? Hs']; subst.
      inversion Hs' as [| ? ? ? Hs'']; subst. inversion Hs''.
  - intros names Hin.
    destruct (preload_runs self w) as [e' Hf | Hc | d Hr Hc Hp | e' d Hr Hc Hp];
      simpl in *.
    + exfalso. revert Hin. apply not_in_mkdir. discriminate.
    + exfalso. revert Hin. apply not_in_mkdir. discriminate.
    + rewrite Hp. simpl. split; [reflexivity |]. split; [reflexivity |].
      inversion Hin as [| ? ? ? Hs']; subst.
      inversion Hs' as [| ? ? ? Hs'']; subst.
      inversion Hs'' as [| ? ? ? Hs3]; subst; [reflexivity | inversion Hs3].
    + exfalso. inversion Hin as [| ? ? ? Hs']; subst.
      inversion Hs' as [| ? ? ? Hs'']; subst. inversion Hs''.
Qed.

(** C7 (as amended).  If the status file exists but cannot be read,
    [preload] raises the exception of the failed read: it does not call the
    preparation routine, does not write the status file, and leaves the world
    as it found it. *)
Theorem preload_unreadable_marker_raises self w e :
  preload_file w = Some (NpyUnreadable e) ->
  preload self w = (Raise e, w, [EvMkdir])
  /\ no_op (preload self w)
  /\ preparations (trace (preload self w)) = 0%nat.
Proof.
  intros Hf. rewrite (preload_unreadable self w e Hf).
  split; [reflexivity |]. split; [apply no_op_mkdir | reflexivity].
Qed.

(** Alternating between two selections, neither of which contains the other,
    from a state in which the first call prepares: every call made prepares. *)
Lemma preload_alternating_prepares self other n : forall w,
  ~ (list_to_set (signals self) : gset string) ⊆ list_to_set (signals other) ->
  ~ (list_to_set (signals other) : gset string) ⊆ list_to_set (signals self) ->
  readable w -> ~ covers w self ->
  preparations (trace (preload_alternating self other n w))
  = preload_calls (trace (preload_alternating self other n w)).
Proof.
  revert self other. induction n as [| n IH]; intros self other w Hso Hos Hr Hc.
  - reflexivity.
  - simpl.
    pose proof (preload_needed self w Hr Hc) as Hrun.
    destruct (_preload_dataset self (prepared w)) as [[[]|e] d].
    + rewrite (io_bind_ok _ _ _ _ _ _ Hrun), !trace_triple.
      rewrite preparations_app, preload_calls_app.
      rewrite (IH other self _ Hos Hso (readable_array _ _) (not_covers_after _ _ _ Hos)).
      reflexivity.
    + rewrite (io_bind_raise _ _ _ _ _ _ Hrun). reflexivity.
Qed.

(** C10 (as amended).  Whenever a call of [preload] that calls the
    preparation routine returns, the status file holds exactly the selection
    of the current instance: the previous record is replaced, so a signal
    type of the previous record that the selection lacks is gone.  Hence,
    alternating between two disjoint non-empty selections, starting with a
    call that prepares, every call made calls the preparation routine. *)
Theorem preload_replaces_marker self other w n :
  (EvPreloadDataset ∈ trace (preload self w) ->
   outcome (preload self w) = Ok tt ->
   preload_file (world_after (preload self w)) = Some (NpyArray (signals self))
   /\ trace (preload self w) = [EvMkdir; EvPreloadDataset; EvNpSave (signals self)])
  /\
  (disjoint_selections self other ->
   signals self ≠ [] -> signals other ≠ [] ->
   readable w -> ~ covers w self ->
   preparations (trace (preload_alternating self other n w))
   = preload_calls (trace (preload_alternating self other n w))).
Proof.
  split.
  - intros Hin Hok.
    destruct (preload_runs self w) as [e' Hf | Hc | d Hr Hc Hp | e' d Hr Hc Hp];
      simpl in *.
    + discriminate.
    + exfalso. revert Hin. apply not_in_mkdir. discriminate.
    + split; reflexivity.
    + discriminate.
  - intros Hdisj Hs Ho Hr Hc.
    assert (Hne : forall xs ys : list string,
               xs ≠ [] -> (list_to_set xs : gset string) ## list_to_set ys ->
               ~ (list_to_set xs : gset string) ⊆ list_to_set ys).
    { intros xs ys Hxs Hd Hsub. destruct xs as [| x xs]; [congruence |].
      apply (Hd x); [| apply Hsub]; set_solver. }
    apply preload_alternating_prepares; try assumption.
    + apply Hne; assumption.
    + apply Hne; [assumption |]. unfold disjoint_selections in Hdisj. set_solver.
Qed.

End PreloadProperties.


(** *** The preload properties on concrete runs *)

Section PreloadRuns.
Import Examples.

Lemma not_covers_by_computation {D : Type} (w : World D) self names :
  preload_file w = Some (NpyArray names) ->
  issubset (signals self) names = false -> ~ covers w self.
Proof.
  intros Hf Hs Hc. apply (covers_array w self names Hf) in Hc. congruence.
Qed.

Lemma not_covers_absent {D : Type} (w : World D) self :
  preload_file w = None -> ~ covers w self.
Proof. intros Hf (names & Hf' & _). congruence. Qed.

Lemma disjoint_by_computation self other :
  bool_decide ((list_to_set (signals self) : gset string) ## list_to_set (signals other))
  = true -> disjoint_selections self other.
Proof. apply bool_decide_eq_true. Qed.

(** After a preload for ECG, an instance that selects ECG and GSR prepares
    again and the status file lists ECG and GSR. *)
Lemma preload_noop_iff_covers_witness :
  readable (world_with ["ECG"])
  /\ ~ covers (world_with ["ECG"]) (selecting ["ECG"; "GSR"])
  /\ preload (H := counting_impl) (selecting ["ECG"; "GSR"]) (world_with ["ECG"])
     = (Ok tt, {| preload_file := Some (NpyArray ["ECG"; "GSR"]); prepared := 2%nat |},
        [EvMkdir; EvPreloadDataset; EvNpSave ["ECG"; "GSR"]]).
Proof.
  assert (Hr : readable (world_with ["ECG"])) by (intros e; discriminate).
  assert (Hn : ~ covers (world_with ["ECG"]) (selecting ["ECG"; "GSR"])).
  { apply (not_covers_by_computation _ _ ["ECG"]); reflexivity. }
  split; [exact Hr |]. split; [exact Hn |].
  destruct (preload_noop_iff_covers (H := counting_impl)
              (selecting ["ECG"; "GSR"]) (world_with ["ECG"]) Hr) as [_ Hneed].
  rewrite (Hneed Hn). reflexivity.
Defined.

(** With an unreadable status file the run is a no-op although the file does
    not cover the selection: the preparation routine is not called. *)
Lemma preload_unreadable_marker_is_no_op :
  ~ (no_op (preload (H := counting_impl) (selecting ["ECG"])
              (world_unreadable truncated_error))
     <-> covers (world_unreadable truncated_error) (selecting ["ECG"]))
  /\ EvPreloadDataset ∉
       trace (preload (H := counting_impl) (selecting ["ECG"])
                (world_unreadable truncated_error)).
Proof.
  assert (Hnoop : no_op (preload (H := counting_impl) (selecting ["ECG"])
                           (world_unreadable truncated_error))).
  { rewrite (preload_unreadable (selecting ["ECG"]) (world_unreadable truncated_error)
               truncated_error eq_refl).
    apply no_op_mkdir. }
  split.
  - intros [Hc _]. apply Hc in Hnoop.
    revert Hnoop. apply (unreadable_not_covers _ _ truncated_error). reflexivity.
  - apply Hnoop.
Qed.

Lemma preload_twice_prepares_once_witness :
  preload (H := counting_impl) (selecting ["ECG"]) fresh_world
  = (Ok tt, world_with ["ECG"], [EvMkdir; EvPreloadDataset; EvNpSave ["ECG"]])
  /\ preload (H := counting_impl) (selecting ["ECG"]) (world_with ["ECG"])
     = (Ok tt, world_with ["ECG"], [EvMkdir]).
Proof.
  split; [reflexivity |].
  apply (proj2 (preload_twice_prepares_once (H := counting_impl)
                  (selecting ["ECG"]) fresh_world) _ _ eq_refl).
Defined.

Lemma preload_failure_keeps_marker_witness :
  fst (_preload_dataset (AERDatasetImpl := failing_impl) (selecting ["ECG"; "GSR"])
         (prepared (world_with ["ECG"])))
  = Raise (OSError "raw recordings not found")
  /\ preload_file (world_after (preload (H := failing_impl) (selecting ["ECG"; "GSR"])
                                  (world_with ["ECG"])))
     = Some (NpyArray ["ECG"]).
Proof.
  split; [reflexivity |].
  refine (proj1 (proj2 (proj1 (preload_failure_keeps_marker (H := failing_impl)
            (selecting ["ECG"; "GSR"]) (world_with ["ECG"])) _ _ eq_refl))).
  vm_compute. apply list_elem_of_further, list_elem_of_here.
Defined.

Lemma preload_unreadable_marker_raises_witness :
  preload_file (world_unreadable truncated_error) = Some (NpyUnreadable truncated_error)
  /\ preload (H := counting_impl) (selecting ["ECG"]) (world_unreadable truncated_error)
     = (Raise truncated_error, world_unreadable truncated_error, [EvMkdir]).
Proof.
  split; [reflexivity |].
  apply (preload_unreadable_marker_raises (H := counting_impl)
           (selecting ["ECG"]) (world_unreadable truncated_error) truncated_error eq_refl).
Defined.

(** An unreadable status file is not taken as "preload needed": the call
    raises, the preparation routine is not run and the file is not
    rewritten. *)
Lemma preload_unreadable_marker_not_recovered :
  outcome (preload (H := counting_impl) (selecting ["ECG"; "GSR"])
             (world_unreadable pickle_error)) = Raise pickle_error
  /\ preparations (trace (preload (H := counting_impl) (selecting ["ECG"; "GSR"])
                            (world_unreadable pickle_error))) = 0%nat
  /\ preload_file (world_after (preload (H := counting_impl) (selecting ["ECG"; "GSR"])
                                  (world_unreadable pickle_error)))
     = Some (NpyUnreadable pickle_error).
Proof. repeat split. Qed.

Lemma preload_replaces_marker_witness :
  disjoint_selections (selecting ["ECG"]) (selecting ["GSR"])
  /\ preload_file (world_after (preload (H := counting_impl) (selecting ["ECG"])
                                  (world_with ["GSR"; "EEG"])))
     = Some (NpyArray ["ECG"])
  /\ preparations (trace (preload_alternating (H := counting_impl)
                            (selecting ["ECG"]) (selecting ["GSR"]) 4 fresh_world))
     = 4%nat.
Proof.
  assert (Hd : disjoint_selections (selecting ["ECG"]) (selecting ["GSR"])).
  { apply disjoint_by_computation. vm_compute. reflexivity. }
  split; [exact Hd |]. split.
  - refine (proj1 (proj1 (preload_replaces_marker (H := counting_impl)
              (selecting ["ECG"]) (selecting ["GSR"]) (world_with ["GSR"; "EEG"]) 0) _ eq_refl)).
    vm_compute. apply list_elem_of_further, list_elem_of_here.
  - rewrite (proj2 (preload_replaces_marker (H := counting_impl)
              (selecting ["ECG"]) (selecting ["GSR"]) fresh_world 4) Hd).
    + reflexivity.
    + discriminate.
    + discriminate.
    + intros e. discriminate.
    + apply not_covers_absent. reflexivity.
Defined.

(** An instance with an empty selection is covered by any status file:
    alternating between the selection ECG and the empty selection, which are
    disjoint, the second call does not prepare. *)
Lemma preload_alternating_empty_selection :
  disjoint_selections (selecting ["ECG"]) (selecting [])
  /\ preload_calls (trace (preload_alternating (H := counting_impl)
                             (selecting ["ECG"]) (selecting []) 2 fresh_world)) = 2%nat
  /\ preparations (trace (preload_alternating (H := counting_impl)
                            (selecting ["ECG"]) (selecting []) 2 fresh_world)) = 1%nat.
Proof.
  split; [| split; reflexivity].
  apply disjoint_by_computation. vm_compute. reflexivity.
Qed.

End PreloadRuns.

(** ** Participant-based splits *)

Section SplitProperties.
Implicit Types (self : AERDataset) (rng : Rng) (splits : list Q) (counts : list Z).


Lemma sum_app counts counts' : sum (counts ++ counts') = sum counts + sum counts'.
Proof. induction counts as [| c counts IH]; simpl; lia. Qed.

Lemma sum_nonneg counts : Forall (fun c => 0 <= c) counts -> 0 <= sum counts.
Proof. induction 1; simpl; lia. Qed.






(** [np.random.choice] without replacement, on a pool that is large enough:
    the sample has the requested size, no repeats, and comes from the pool. *)
Lemma random_choice_ok rng i (all_ids : gset Z) c :
  rng_valid rng ->
  0 <= c <= Z.of_nat (size all_ids) ->
  exists chosen,
    random_choice rng i (elements all_ids) c = Ok chosen
    /\ Z.of_nat (length chosen) = c
    /\ NoDup chosen
    /\ (forall x, x ∈ chosen -> x ∈ all_ids).
Proof.
  intros Hrng Hc.
  assert (Hlen : length (elements all_ids) = size all_ids) by reflexivity.
  exists (take (Z.to_nat c) (rng i (elements all_ids))).
  unfold random_choice.
  rewrite bool_decide_eq_false_2.
  2:{ intros [Hnil Hne]. rewrite Hnil in Hlen. simpl in Hlen. lia. }
  rewrite bool_decide_eq_false_2 by lia.
  rewrite bool_decide_eq_false_2 by lia.
  split; [reflexivity |].
  assert (Hperm : rng i (elements all_ids) ≡ₚ elements all_ids) by apply Hrng.
  split; [| split].
  - rewrite length_take_le; [lia |]. rewrite Hperm. lia.
  - eapply sublist_NoDup; [| apply sublist_take].
    rewrite Hperm. apply NoDup_elements.
  - intros x Hx. apply elem_of_elements. rewrite <- Hperm.
    eapply subseteq_take. exact Hx.
Qed.


Lemma elem_of_concat (x : Z) (groups : list (list Z)) :
  x ∈ concat groups <-> exists g, g ∈ groups /\ x ∈ g.
Proof.
  induction groups as [| g0 groups IH]; simpl.
  - split; [intros Hx; inversion Hx | intros (g & Hg & _); inversion Hg].
  - rewrite elem_of_app, IH. split.
    + intros [Hx | (g & Hg & Hx)].
      * exists g0. split; [apply list_elem_of_here | exact Hx].
      * exists g. split; [apply list_elem_of_further, Hg | exact Hx].
    + intros (g & Hg & Hx). inversion Hg; subst; [left; exact Hx |].
      right. exists g. auto.
Qed.

(** Groups whose concatenation has no repeats are pairwise disjoint. *)
Lemma NoDup_concat_pairwise_disjoint (groups : list (list Z)) :
  NoDup (concat groups) -> pairwise_disjoint groups.
Proof.
  induction groups as [| g0 groups IH]; intros Hnd i j g h Hij Hi Hj x Hg Hh.
  - discriminate.
  - simpl in Hnd. apply NoDup_app in Hnd. destruct Hnd as (_ & Hcross & Hnd).
    destruct i as [| i], j as [| j]; simpl in Hi, Hj.
    + congruence.
    + injection Hi as ->. apply (Hcross x Hg).
      apply elem_of_concat. exists h. split; [| exact Hh].
      eapply list_elem_of_lookup_2. exact Hj.
    + injection Hj as ->. apply (Hcross x Hh).
      apply elem_of_concat. exists g. split; [| exact Hg].
      eapply list_elem_of_lookup_2. exact Hi.
    + exact (IH Hnd i j g h ltac:(congruence) Hi Hj x Hg Hh).
Qed.


Lemma Qgtb_false x y : Qgtb x y = false <-> (x <= y)%Q.
Proof.
  unfold Qgtb. rewrite negb_false_iff. apply Qle_bool_iff.
Qed.




Lemma get_trial_splits_single self (x : Q) rng :
  (Qabs (1 - x) <= 1 # 10000)%Q ->
  get_trial_splits self (Some [x]) rng = Ok (AllTrials (_all_trials self)).
Proof.
  intros Hx. unfold get_trial_splits, splits_or_default.
  change (np_sum [x]) with (x + 0)%Q.
  assert (Hg : Qgtb (Qabs (1 - (x + 0))) (1 # 10000) = false).
  { apply Qgtb_false. rewrite Qplus_0_r. exact Hx. }
  rewrite Hg. reflexivity.
Qed.

(** C4 (as amended).  With [splits] omitted, [get_trial_splits] returns the
    list of all trials, ungrouped; with exactly one split value that is
    within 1e-4 of 1 it returns what it returns with [splits] omitted; in
    particular [splits=[1.0]] gives the same flat list as [splits=None]. *)
Theorem get_trial_splits_single_split self rng :
  get_trial_splits self None rng = Ok (AllTrials (trials self))
  /\ (forall x : Q, (Qabs (1 - x) <= 1 # 10000)%Q ->
        get_trial_splits self (Some [x]) rng = get_trial_splits self None rng)
  /\ get_trial_splits self (Some [1%Q]) rng = get_trial_splits self None rng.
Proof.
  assert (Hnone : get_trial_splits self None rng = Ok (AllTrials (trials self))).
  { apply (get_trial_splits_single self 1 rng). vm_compute. discriminate. }
  split; [exact Hnone |]. split.
  - intros x Hx. rewrite Hnone. apply get_trial_splits_single. exact Hx.
  - reflexivity.
Qed.


(** Every trial of a participant of the dataset is in exactly one group. *)
Lemma trials_split_once self (participant_splits : list (list Z)) :
  pairwise_disjoint participant_splits ->
  union_of participant_splits = participant_ids self ->
  forall trial, trial ∈ trials self -> participant_id trial ∈ participant_ids self ->
  exists i g, participant_splits !! i = Some g
    /\ trial ∈ trials_of self g
    /\ (forall j h, participant_splits !! j = Some h -> trial ∈ trials_of self h -> j = i).
Proof.
  intros Hdisj Hunion trial Ht Hp.
  rewrite <- Hunion in Hp. apply elem_of_list_to_set, elem_of_concat in Hp.
  destruct Hp as (g & Hg & Hpg). apply list_elem_of_lookup in Hg. destruct Hg as [i Hi].
  exists i, g. split; [exact Hi |]. split.
  - apply list_elem_of_filter. auto.
  - intros j h Hj Hth. apply list_elem_of_filter in Hth. destruct Hth as [Hph _].
    destruct (decide (j = i)) as [-> | Hne]; [reflexivity |].
    exfalso. exact (Hdisj j i h g Hne Hj Hi _ Hph Hpg).
Qed.

(** When do the counts of the groups after the first fit?  Whenever the sum
    of the fractions times the number of participants stays below that number
    plus one: for fractions that sum to at most 1, and for fewer than 10000
    participants with any sum within the tolerance. *)
Lemma Qtruncate_le (f : Q) (n : Z) :
  (0 <= f)%Q -> 0 <= n -> (inject_Z (Qtruncate (f * inject_Z n)) <= f * inject_Z n)%Q.
Proof.
  intros Hf Hn. unfold Qtruncate.
  rewrite Z.quot_div_nonneg.
  - apply (Qfloor_le (f * inject_Z n)).
  - destruct f as [num den]. unfold Qle in Hf. simpl in *. nia.
  - lia.
Qed.

Lemma np_sum_nonneg splits :
  Forall (fun f => (0 <= f)%Q) splits -> (0 <= np_sum splits)%Q.
Proof.
  induction 1 as [| f splits Hf Hfs IH]; simpl.
  - apply Qle_refl.
  - replace 0%Q with (0 + 0)%Q by reflexivity. apply Qplus_le_compat; assumption.
Qed.

Lemma proportional_counts_le splits n :
  Forall (fun f => (0 <= f)%Q) splits -> 0 <= n ->
  (inject_Z (sum (proportional_counts splits n)) <= np_sum splits * inject_Z n)%Q.
Proof.
  intros Hs Hn. induction Hs as [| f splits Hf Hfs IH]; simpl.
  - rewrite Qmult_0_l. apply Qle_refl.
  - rewrite inject_Z_plus, Qmult_plus_distr_l.
    apply Qplus_le_compat; [apply Qtruncate_le; assumption | exact IH].
Qed.

Lemma rest_counts_fit f splits n :
  (0 <= f)%Q -> Forall (fun f => (0 <= f)%Q) splits -> 0 <= n ->
  (np_sum (f :: splits) * inject_Z n < inject_Z (n + 1))%Q ->
  sum (proportional_counts splits n) <= n.
Proof.
  intros Hf Hfs Hn Hlt.
  pose proof (proportional_counts_le splits n Hfs Hn) as Hle.
  assert (Hn' : (0 <= inject_Z n)%Q).
  { change 0%Q with (inject_Z 0). rewrite <- Zle_Qle. exact Hn. }
  assert (Hstep : (np_sum splits * inject_Z n <= np_sum (f :: splits) * inject_Z n)%Q).
  { simpl. rewrite Qmult_plus_distr_l.
    rewrite <- (Qplus_0_l (np_sum splits * inject_Z n)) at 1.
    apply Qplus_le_compat; [| apply Qle_refl].
    apply Qmult_le_0_compat; assumption. }
  assert (Hz : (inject_Z (sum (proportional_counts splits n)) < inject_Z (n + 1))%Q).
  { eapply Qle_lt_trans; [exact Hle |]. eapply Qle_lt_trans; [exact Hstep | exact Hlt]. }
  rewrite <- Zlt_Qlt in Hz. lia.
Qed.

Lemma rest_counts_fit_unit_sum f splits n :
  (0 <= f)%Q -> Forall (fun f => (0 <= f)%Q) splits -> 0 <= n ->
  (np_sum (f :: splits) <= 1)%Q ->
  sum (proportional_counts splits n) <= n.
Proof.
  intros Hf Hfs Hn Hsum. apply (rest_counts_fit f); try assumption.
  assert (Hn' : (0 <= inject_Z n)%Q).
  { change 0%Q with (inject_Z 0). rewrite <- Zle_Qle. exact Hn. }
  apply Qle_lt_trans with (inject_Z n).
  - rewrite <- (Qmult_1_l (inject_Z n)) at 2.
    apply Qmult_le_compat_r; assumption.
  - rewrite <- Zlt_Qlt. lia.
Qed.

Lemma rest_counts_fit_small f splits n :
  (0 <= f)%Q -> Forall (fun f => (0 <= f)%Q) splits -> 0 <= n < 10000 ->
  (Qabs (1 - np_sum (f :: splits)) <= 1 # 10000)%Q ->
  sum (proportional_counts splits n) <= n.
Proof.
  intros Hf Hfs Hn Htol. apply (rest_counts_fit f); try assumption; [lia |].
  apply Qabs_Qle_condition in Htol. destruct Htol as [Hlo _].
  assert (Hsum : (np_sum (f :: splits) <= 10001 # 10000)%Q).
  { set (total := np_sum (f :: splits)) in *. clearbody total. lra. }
  assert (Hn' : (0 <= inject_Z n)%Q).
  { change 0%Q with (inject_Z 0). rewrite <- Zle_Qle. lia. }
  apply Qle_lt_trans with ((10001 # 10000) * inject_Z n)%Q.
  - apply Qmult_le_compat_r; assumption.
  - unfold Qlt, Qmult, inject_Z. simpl. lia.
Qed.



End SplitProperties.

(** *** The split properties on concrete datasets *)

Section SplitRuns.
Import Examples.

Lemma reversed_valid : rng_valid reversed.
Proof. intros i a. unfold reversed. symmetry. apply Permutation_rev. Qed.



Lemma seventy_thirty_sum : (Qabs (1 - np_sum [7 # 10; 3 # 10]) <= 1 # 10000)%Q.
Proof. vm_compute. discriminate. Qed.

Lemma ten_participants : size (participant_ids (with_participants 10)) = 10%nat.
Proof. vm_compute. reflexivity. Qed.






Lemma get_trial_splits_single_split_witness :
  (Qabs (1 - (99995 # 100000)) <= 1 # 10000)%Q
  /\ get_trial_splits (with_participants 10) (Some [99995 # 100000]%Q) reversed
     = get_trial_splits (with_participants 10) None reversed.
Proof.
  assert (Hx : (Qabs (1 - (99995 # 100000)) <= 1 # 10000)%Q) by (vm_compute; discriminate).
  split; [exact Hx |].
  exact (proj1 (proj2 (get_trial_splits_single_split (with_participants 10) reversed)) _ Hx).
Defined.

(** A single split value of 0.5 does not behave like omitted splits: the
    call raises where the call without splits returns all trials. *)
Lemma get_trial_splits_single_half :
  get_trial_splits (with_participants 10) (Some [1 # 2]%Q) reversed = Raise splits_error
  /\ get_trial_splits (with_participants 10) None reversed
     = Ok (AllTrials (trials (with_participants 10)))
  /\ get_trial_splits (with_participants 10) (Some [1 # 2]%Q) reversed
     ≠ get_trial_splits (with_participants 10) None reversed.
Proof.
  split; [vm_compute; reflexivity |].
  split; [vm_compute; reflexivity |].
  vm_compute. discriminate.
Qed.

End SplitRuns.

(** ** AscertainTrial: metadata and loading *)

Section AscertainProperties.
Import Ascertain.
Context `{PyDatetime} (disk : mat_files).
Implicit Types (self : AscertainTrial) (signal_type : string) (data : ndarray).

Lemma mapM_length {A B : Type} (f : A -> result B) (l : list A) : forall ys,
  mapM f l = Ok ys -> length ys = length l.
Proof.
  induction l as [| x l IH]; simpl; intros ys Hm.
  - injection Hm as <-. reflexivity.
  - destruct (f x) as [y | e]; simpl in Hm; [| discriminate].
    destruct (mapM f l) as [ys' | e]; simpl in Hm; [| discriminate].
    injection Hm as <-. simpl. rewrite (IH ys' eq_refl). reflexivity.
Qed.

Lemma column_length (a : ndarray) j : length (column a j) = length a.
Proof. unfold column. apply length_map. Qed.

(** The array that [_load_ecg_signal_data] returns has three rows, each as
    long as the recording [Data_ECG] has samples. *)
Lemma _load_ecg_signal_data_shape (signal_data_file : matfile) data :
  _load_ecg_signal_data signal_data_file = Ok data ->
  exists ecg_data ts c1 c2,
    signal_data_file !! "Data_ECG" = Some ecg_data
    /\ data = [ts; c1; c2]
    /\ length ts = length ecg_data
    /\ length c1 = length ecg_data
    /\ length c2 = length ecg_data.
Proof.
  unfold _load_ecg_signal_data, getitem, index. intros Hload.
  repeat match type of Hload with
  | context [match ?x with Some _ => _ | None => _ end] =>
      destruct x eqn:?; simpl in Hload; [| discriminate]
  end.
  destruct (new_datetime _ _ _ _ _ _ _) as [start_time | e]; simpl in Hload;
    [| discriminate].
  repeat match type of Hload with
  | context [match ?x with Some _ => _ | None => _ end] =>
      destruct x eqn:?; simpl in Hload; [| discriminate]
  end.
  destruct (take_columns _ _) as [ecg | e] eqn:Hecg; simpl in Hload; [| discriminate].
  destruct (mapM _ (column ecg 0)) as [ts | e] eqn:Hts; simpl in Hload; [| discriminate].
  injection Hload as <-.
  apply mapM_length in Hecg. apply mapM_length in Hts.
  rewrite column_length in Hts.
  eexists _, ts, (column ecg 1), (column ecg 2).
  split; [eassumption |]. split; [reflexivity |].
  rewrite !column_length. repeat split; congruence.
Qed.

(** Only a successful [load_signal_data('ECG')] changes the cached duration. *)
Lemma after_call_duration self c :
  c ≠ LoadSignalData "ECG" ->
  _ecg_signal_duration (after_call disk self c) = _ecg_signal_duration self.
Proof.
  intros Hc. destruct c as [s path | | s | s]; simpl; try reflexivity.
  unfold load_signal_data.
  destruct (getitem _ s) as [file | e]; [| reflexivity].
  destruct (loadmat disk file) as [m | e]; [| reflexivity].
  rewrite bool_decide_eq_false_2 by congruence.
  repeat case_bool_decide; reflexivity.
Qed.

Lemma after_calls_duration cs : forall self,
  LoadSignalData "ECG" ∉ cs ->
  _ecg_signal_duration (after_calls disk self cs) = _ecg_signal_duration self.
Proof.
  unfold after_calls. induction cs as [| c cs IH]; intros self Hnot; simpl.
  - reflexivity.
  - rewrite IH.
    + apply after_call_duration. intros ->. apply Hnot. apply list_elem_of_here.
    + intros Hin. apply Hnot. apply list_elem_of_further. exact Hin.
Qed.

(** C8.  The metadata of ['ECG'] carries the sample rate 256 and the channel
    count 2.  Its duration is [None] for a new trial and stays [None] over
    any sequence of calls that contains no [load_signal_data('ECG')].  When
    [load_signal_data('ECG')] returns, it has loaded the [N] samples of
    [Data_ECG] into an array of three rows of length [N], and from then on the
    metadata give the duration [N / 256]; for 2560 samples that is 10. *)
Theorem ecg_duration_metadata :
  (forall participant_id movie_id calls,
     LoadSignalData "ECG" ∉ calls ->
     get_signal_metadata (after_calls disk (__init__ participant_id movie_id) calls) "ECG"
     = Some {| signal_type := "ECG"; sample_rate := 256; n_channels := 2;
               duration := None |})
  /\
  (forall self data self',
     load_signal_data disk self "ECG" = (Ok data, self') ->
     exists path signal_data_file ecg_data,
       _signal_data_files (base self) !! "ECG" = Some path
       /\ disk !! path = Some signal_data_file
       /\ signal_data_file !! "Data_ECG" = Some ecg_data
       /\ length data = 3%nat
       /\ Forall (fun row => length row = length ecg_data) data
       /\ get_signal_metadata self' "ECG"
          = Some {| signal_type := "ECG"; sample_rate := 256; n_channels := 2;
                    duration := Some (Z.of_nat (length ecg_data) # 256)%Q |})
  /\ (Z.of_nat 2560 # 256 == 10)%Q.
Proof.
  split; [| split].
  - intros participant_id movie_id calls Hnot.
    unfold get_signal_metadata. simpl.
    rewrite after_calls_duration by exact Hnot. reflexivity.
  - intros self data self' Hload. unfold load_signal_data, getitem, loadmat in Hload.
    destruct (_signal_data_files (base self) !! "ECG") as [path |] eqn:Hpath;
      [| discriminate].
    destruct (disk !! path) as [signal_data_file |] eqn:Hfile; [| discriminate].
    simpl in Hload.
    destruct (_load_ecg_signal_data signal_data_file) as [data' | e] eqn:Hecg;
      [| discriminate].
    injection Hload as <- <-.
    destruct (_load_ecg_signal_data_shape _ _ Hecg)
      as (ecg_data & ts & c1 & c2 & Hdata & -> & Hts & Hc1 & Hc2).
    exists path, signal_data_file, ecg_data.
    repeat (split; [first [assumption | reflexivity] |]).
    split; [repeat constructor; assumption |].
    unfold get_signal_metadata, shape1. simpl. rewrite Hts. reflexivity.
  - reflexivity.
Qed.

(** What [load_signal_data] does with a signal type it has no branch for:
    without a registered file the subscript raises [KeyError]; with a
    registered file that cannot be read the error of [loadmat] propagates;
    with a registered, readable file it raises the [ValueError] that names the
    signal type.  The trial is unchanged in all three cases. *)
Lemma load_signal_data_unregistered self signal_type :
  _signal_data_files (base self) !! signal_type = None ->
  load_signal_data disk self signal_type = (Raise (KeyError signal_type), self).
Proof. intros Hnone. unfold load_signal_data, getitem. rewrite Hnone. reflexivity. Qed.

Lemma load_signal_data_unreadable self signal_type path :
  _signal_data_files (base self) !! signal_type = Some path ->
  disk !! path = None ->
  load_signal_data disk self signal_type
  = (Raise (OSError "No such file or directory"), self).
Proof.
  intros Hpath Hfile. unfold load_signal_data, getitem, loadmat.
  rewrite Hpath, Hfile. reflexivity.
Qed.

Lemma load_signal_data_not_implemented self signal_type path signal_data_file :
  ~ supported signal_type ->
  _signal_data_files (base self) !! signal_type = Some path ->
  disk !! path = Some signal_data_file ->
  load_signal_data disk self signal_type = (Raise (not_implemented signal_type), self).
Proof.
  intros Hns Hpath Hfile. unfold load_signal_data, getitem, loadmat.
  rewrite Hpath, Hfile. unfold supported in Hns.
  rewrite !bool_decide_eq_false_2 by tauto. reflexivity.
Qed.

End AscertainProperties.

(** *** Loading on a concrete trial *)

Section AscertainRuns.
Import Ascertain Examples.

(** The example recording loads, into an array of 2560 columns. *)
Lemma ecg_recording_loads :
  exists data self',
    load_signal_data (H := recording_clock) ascertain_disk ecg_trial "ECG" = (Ok data, self')
    /\ shape1 data = 2560%nat.
Proof.
  assert (Hok : is_ok (fst (load_signal_data (H := recording_clock)
                              ascertain_disk ecg_trial "ECG")) = true)
    by (vm_compute; reflexivity).
  assert (Hshape : shape1 (loaded (fst (load_signal_data (H := recording_clock)
                                          ascertain_disk ecg_trial "ECG"))) = 2560%nat)
    by (vm_compute; reflexivity).
  destruct (load_signal_data (H := recording_clock) ascertain_disk ecg_trial "ECG")
    as [[data | e] self'].
  - exists data, self'. split; [reflexivity | exact Hshape].
  - discriminate Hok.
Qed.

(** The metadata of the example trial give no duration before the load and
    a duration of ten seconds after it. *)
Lemma ecg_duration_metadata_witness :
  exists data self',
    load_signal_data (H := recording_clock) ascertain_disk ecg_trial "ECG" = (Ok data, self')
    /\ shape1 data = 2560%nat
    /\ get_signal_metadata ecg_trial "ECG"
       = Some {| signal_type := "ECG"; sample_rate := 256; n_channels := 2;
                 duration := None |}
    /\ exists d, get_signal_metadata self' "ECG"
         = Some {| signal_type := "ECG"; sample_rate := 256; n_channels := 2;
                   duration := Some d |} /\ (d == 10)%Q.
Proof.
  destruct ecg_recording_loads as (data & self' & Hload & Hshape).
  exists data, self'. split; [exact Hload |]. split; [exact Hshape |]. split.
  - exact (proj1 (ecg_duration_metadata (H := recording_clock) ascertain_disk) 1 1
             [AssignSignalDataFile "ECG" "Movie_P01/ECG_Clip1.mat"]
             ltac:(intros Hin; inversion Hin as [| ? ? ? Hin']; inversion Hin')).
  - destruct (proj1 (proj2 (ecg_duration_metadata (H := recording_clock) ascertain_disk))
                ecg_trial data self' Hload)
      as (path & file & ecg_data & Hpath & Hfile & Hdata & Hlen & Hrows & Hmeta).
    exists (Z.of_nat (length ecg_data) # 256)%Q. split; [exact Hmeta |].
    assert (Hn : length ecg_data = 2560%nat).
    { inversion Hrows as [| row rows Hrow _ Heq]; subst.
      - discriminate Hlen.
      - unfold shape1 in Hshape. simpl in Hshape. congruence. }
    rewrite Hn. reflexivity.
Defined.

(** C9 (the code at the failing input).  A trial with the ECG file
    registered, asked for the signal type PPG, which [load_signal_data] has
    no branch for: the subscript on
    [_signal_data_files] raises [KeyError('PPG')] before the dispatch on the
    signal type is reached, so the [ValueError] that names the signal type is
    not raised. *)
Lemma load_signal_data_unregistered_type :
  ~ supported "PPG"
  /\ load_signal_data (H := recording_clock) ascertain_disk ecg_trial "PPG"
     = (Raise (KeyError "PPG"), ecg_trial)
  /\ fst (load_signal_data (H := recording_clock) ascertain_disk ecg_trial "PPG")
     ≠ Raise (not_implemented "PPG").
Proof.
  split; [| split].
  - intros [Hs | [Hs | Hs]]; discriminate Hs.
  - apply load_signal_data_unregistered. reflexivity.
  - rewrite load_signal_data_unregistered by reflexivity. simpl. discriminate.
Qed.

End AscertainRuns.

(** * Further properties *)

(** ** The preload status file, over several calls and instances *)

Section PreloadInvariants.
Context {D : Type} `{AERDatasetImpl D}.
Implicit Types (self other : AERDataset) (w : World D).

Lemma covers_subset w self other :
  (list_to_set (signals other) : gset string) ⊆ list_to_set (signals self) ->
  covers w self -> covers w other.
Proof.
  intros Hsub (names & Hf & Hs). exists names. split; [exact Hf |].
  etransitivity; eassumption.
Qed.

(** X1.  What a call of [preload] leaves behind.  When it returns, the
    status file exists, is readable and lists every signal type of the
    selection, and it is either the file found or holds exactly the selection;
    when it raises, for whatever reason, the status file is the file found. *)
Theorem preload_leaves_marker self w :
  (outcome (preload self w) = Ok tt ->
     covers (world_after (preload self w)) self
     /\ readable (world_after (preload self w))
     /\ (preload_file (world_after (preload self w)) = preload_file w
         \/ preload_file (world_after (preload self w)) = Some (NpyArray (signals self))))
  /\ (forall e, outcome (preload self w) = Raise e ->
        preload_file (world_after (preload self w)) = preload_file w
        /\ no_save (trace (preload self w))).
Proof.
  destruct (preload_runs self w) as [e' Hf | Hc | d Hr Hc Hp | e' d Hr Hc Hp];
    unfold outcome, world_after, trace; simpl;
    (split; [intros Hok | intros e Hraise]); try discriminate.
  - split; [reflexivity |]. intros names. apply not_in_mkdir. discriminate.
  - split; [exact Hc |]. split; [| left; reflexivity].
    destruct Hc as (names & Hf & _). intros e Hf'. rewrite Hf in Hf'. discriminate Hf'.
  - split; [apply covers_own_marker |]. split; [apply readable_array | right; reflexivity].
  - split; [reflexivity |]. intros names Hin.
    inversion Hin as [| ? ? ? Hin']; subst.
    inversion Hin' as [| ? ? ? Hin'']; subst. inversion Hin''.
Qed.

(** X2.  A smaller selection is served by a larger one.  After a call of
    [preload] that returned, a call for any instance of the class whose
    signal types are all among those of the first instance is a no-op: it
    returns without preparing or writing and leaves the world as it is. *)
Theorem preload_subset_selection_no_op self other w w1 t1 :
  (list_to_set (signals other) : gset string) ⊆ list_to_set (signals self) ->
  preload self w = (Ok tt, w1, t1) ->
  preload other w1 = (Ok tt, w1, [EvMkdir]) /\ no_op (preload other w1).
Proof.
  intros Hsub Hrun.
  assert (Hc : covers w1 other).
  { apply (covers_subset w1 self other Hsub). eapply preload_ok_covers. exact Hrun. }
  rewrite (preload_covered other w1 Hc). split; [reflexivity | apply no_op_mkdir].
Qed.

(** X3.  The empty selection, which is what the constructor gives when no
    signals are passed.  Any readable status file that exists covers it, so
    [preload] does nothing; without a status file [preload] calls the
    preparation routine and, when the routine returns, writes an empty
    array. *)
Theorem preload_empty_selection self w :
  signals self = [] ->
  (forall names, preload_file w = Some (NpyArray names) ->
     preload self w = (Ok tt, w, [EvMkdir]))
  /\ (preload_file w = None ->
      EvPreloadDataset ∈ trace (preload self w)
      /\ (outcome (preload self w) = Ok tt ->
          preload_file (world_after (preload self w)) = Some (NpyArray [])
          /\ trace (preload self w) = [EvMkdir; EvPreloadDataset; EvNpSave []])).
Proof.
  intros Hs. split.
  - intros names Hf. apply preload_covered. exists names. split; [exact Hf |].
    rewrite Hs. simpl. apply empty_subseteq.
  - intros Hf.
    assert (Hr : readable w) by (intros e; rewrite Hf; discriminate).
    assert (Hc : ~ covers w self) by (intros (names & Hf' & _); congruence).
    rewrite (preload_needed self w Hr Hc), Hs.
    destruct (_preload_dataset self (prepared w)) as [[[] | e] d]; simpl.
    + split; [apply list_elem_of_further, list_elem_of_here |]. intros _. split; reflexivity.
    + split; [apply list_elem_of_further, list_elem_of_here |]. discriminate.
Qed.

(** Repeated calls on one instance: once a call has returned, every later
    call finds the status file covering the selection. *)
Lemma preload_alternating_covered self n : forall w,
  covers w self ->
  preload_alternating self self n w = (Ok tt, w, repeat EvMkdir n).
Proof.
  induction n as [| n IH]; intros w Hc; simpl.
  - reflexivity.
  - rewrite (io_bind_ok _ _ _ _ _ _ (preload_covered self w Hc)).
    rewrite (IH w Hc). reflexivity.
Qed.

Lemma preparations_repeat_mkdir n : preparations (repeat EvMkdir n) = 0%nat.
Proof. induction n as [| n IH]; [reflexivity | exact IH]. Qed.

(** X4.  Any number of calls of [preload] in succession on one instance
    contain at most one call of the preparation routine, and only the first
    call of the sequence can be the one that prepares: when the first call
    returns, the remaining calls add nothing but the resolution of the working
    directory. *)
Theorem preload_repeated_prepares_once self w n :
  (preparations (trace (preload_alternating self self n w)) <= 1)%nat
  /\ (forall w1 t1, preload self w = (Ok tt, w1, t1) ->
        preload_alternating self self (S n) w = (Ok tt, w1, t1 ++ repeat EvMkdir n)).
Proof.
  assert (Hrest : forall w1 t1, preload self w = (Ok tt, w1, t1) ->
            preload_alternating self self (S n) w = (Ok tt, w1, t1 ++ repeat EvMkdir n)).
  { intros w1 t1 Hrun. simpl. rewrite (io_bind_ok _ _ _ _ _ _ Hrun).
    rewrite (preload_alternating_covered self n w1 (preload_ok_covers _ _ _ _ Hrun)).
    reflexivity. }
  split; [| exact Hrest].
  destruct n as [| n]; [cbv; lia |].
  pose proof (preload_prepares_at_most_once self w) as Hle.
  destruct (preload self w) as [[[[] | e] w1] t1] eqn:Hrun.
  - clear Hrest. simpl.
    rewrite (io_bind_ok _ _ _ _ _ _ Hrun).
    rewrite (preload_alternating_covered self n w1 (preload_ok_covers _ _ _ _ Hrun)).
    rewrite !trace_triple, preparations_app, preparations_repeat_mkdir.
    simpl in Hle. lia.
  - simpl. rewrite (io_bind_raise _ _ _ _ _ _ Hrun). exact Hle.
Qed.

End PreloadInvariants.

(** ** Participant-based splits: what a returned split always is *)

Section SplitInvariants.
Implicit Types (self : AERDataset) (rng : Rng) (splits : list Q) (counts : list Z).

Lemma int32_mod z : exists k, int32 z = z + 2 ^ 32 * k.
Proof.
  unfold int32. exists (- ((z + 2 ^ 31) / 2 ^ 32)).
  pose proof (Z.mod_eq (z + 2 ^ 31) (2 ^ 32) ltac:(lia)). lia.
Qed.

(** The corrected counts add up to the number of participants, up to the
    wrap of the int32 store. *)
Lemma participant_counts_sum_mod splits n :
  splits ≠ [] -> exists k, sum (participant_counts splits n) = n + 2 ^ 32 * k.
Proof.
  intros Hne. unfold participant_counts.
  destruct splits as [| f splits]; [congruence |].
  change (astype_int32 (f :: splits) n)
    with (int32 (Qtruncate (f * inject_Z n)) :: astype_int32 splits n).
  set (c0 := int32 (Qtruncate (f * inject_Z n))). set (rest := astype_int32 splits n).
  case_bool_decide as Hs.
  - destruct (int32_mod (c0 + (n - sum (c0 :: rest)))) as [k Hk].
    exists k. simpl in *. lia.
  - exists 0. lia.
Qed.

Lemma random_choice_inv rng i (a : list Z) c chosen :
  random_choice rng i a c = Ok chosen ->
  0 <= c <= Z.of_nat (length a) /\ chosen = take (Z.to_nat c) (rng i a).
Proof.
  unfold random_choice. repeat case_bool_decide; intros Heq; try discriminate.
  injection Heq as <-. split; [lia | reflexivity].
Qed.

(** The loop, whenever it ends normally: the groups it has added have the
    sizes asked for, which are non-negative, share no participant and come
    from the pool. *)
Lemma draw_participant_splits_inv rng counts : forall i (all_ids : gset Z) acc res,
  rng_valid rng ->
  draw_participant_splits rng i counts all_ids acc = Ok res ->
  all_ids ## list_to_set (concat acc) ->
  exists drawn,
    res = acc ++ drawn
    /\ sizes drawn = counts
    /\ NoDup (concat drawn)
    /\ union_of drawn ⊆ all_ids
    /\ Forall (fun c => 0 <= c) counts
    /\ Z.of_nat (size (union_of drawn)) = sum counts.
Proof.
  induction counts as [| c counts IH]; intros i all_ids acc res Hrng Hrun Hdisj.
  - simpl in Hrun. injection Hrun as <-. exists []. rewrite app_nil_r.
    unfold union_of. simpl.
    split; [reflexivity |]. split; [reflexivity |]. split; [constructor |].
    split; [apply empty_subseteq |]. split; [constructor |].
    vm_compute. reflexivity.
  - simpl in Hrun.
    destruct (random_choice rng i (elements all_ids) c) as [chosen | e] eqn:Hch;
      simpl in Hrun; [| discriminate].
    destruct (random_choice_inv _ _ _ _ _ Hch) as [Hc _].
    assert (Hlen : length (elements all_ids) = size all_ids) by reflexivity.
    destruct (random_choice_ok rng i all_ids c Hrng ltac:(lia))
      as (chosen' & Hch' & Hlen' & Hnd & Hin).
    rewrite Hch in Hch'. injection Hch' as <-.
    assert (Hsub : (list_to_set chosen : gset Z) ⊆ all_ids).
    { intros x Hx. apply elem_of_list_to_set in Hx. auto. }
    assert (Hpool : all_ids ∖ list_to_set (concat (acc ++ [chosen]))
                    = all_ids ∖ list_to_set chosen).
    { rewrite concat_app. simpl. rewrite app_nil_r, list_to_set_app_L.
      apply leibniz_equiv. set_solver. }
    rewrite Hpool in Hrun.
    destruct (IH _ _ _ _ Hrng Hrun) as (drawn & -> & Hsizes & Hnd' & Hunion & Hnn & Hsize).
    { rewrite concat_app. simpl. rewrite app_nil_r, list_to_set_app_L. set_solver. }
    exists (chosen :: drawn). rewrite <- app_assoc. simpl.
    split; [reflexivity |]. split; [| split; [| split; [| split]]].
    + unfold sizes in *. simpl. rewrite Hsizes, Hlen'. reflexivity.
    + apply NoDup_app. split; [exact Hnd |]. split; [| exact Hnd'].
      intros x Hx Hx'.
      assert (Hxu : x ∈ union_of drawn) by (apply elem_of_list_to_set; exact Hx').
      apply Hunion in Hxu. set_solver.
    + unfold union_of in *. simpl. rewrite list_to_set_app_L. set_solver.
    + constructor; [lia | exact Hnn].
    + unfold union_of in *. simpl. rewrite list_to_set_app_L.
      rewrite size_union by set_solver.
      rewrite size_list_to_set by exact Hnd. lia.
Qed.

(** A returned grouped split, in terms of the groups of participants that
    were drawn. *)
Lemma get_trial_splits_groups self (splits : option (list Q)) rng groups :
  rng_valid rng ->
  Z.of_nat (size (participant_ids self)) < 2 ^ 32 ->
  get_trial_splits self splits rng = Ok (TrialSplits groups) ->
  exists participant_splits,
    groups = map (trials_of self) participant_splits
    /\ length participant_splits = length (splits_or_default splits)
    /\ NoDup (concat participant_splits)
    /\ union_of participant_splits = participant_ids self
    /\ sizes participant_splits
       = participant_counts (splits_or_default splits)
           (Z.of_nat (size (participant_ids self))).
Proof.
  intros Hrng Hn. unfold get_trial_splits.
  set (n := Z.of_nat (size (participant_ids self))) in *.
  destruct (Qgtb _ _) eqn:Hg; [discriminate |].
  case_bool_decide as Hlen; [discriminate |].
  destruct (draw_participant_splits rng 0 (participant_counts (splits_or_default splits) n)
              (participant_ids self) []) as [res | e] eqn:Hrun; simpl; [| discriminate].
  intros Heq. injection Heq as <-.
  destruct (draw_participant_splits_inv _ _ _ _ _ _ Hrng Hrun)
    as (drawn & -> & Hsizes & Hnd & Hunion & Hnn & Hsize).
  { simpl. set_solver. }
  simpl. exists drawn. split; [reflexivity |].
  assert (Hne : splits_or_default splits ≠ []).
  { intros Hnil. rewrite Hnil in Hg. vm_compute in Hg. discriminate Hg. }
  split; [| split; [exact Hnd | split; [| exact Hsizes]]].
  - apply (f_equal length) in Hsizes. unfold sizes in Hsizes.
    rewrite length_map in Hsizes. rewrite Hsizes.
    unfold participant_counts, astype_int32.
    case_bool_decide; [| apply length_map].
    destruct (splits_or_default splits); simpl; [reflexivity |].
    rewrite length_map. reflexivity.
  - apply set_subseteq_size_eq; [exact Hunion |].
    destruct (participant_counts_sum_mod (splits_or_default splits) n Hne) as [k Hk].
    assert (Hle : (size (union_of drawn) <= size (participant_ids self))%nat)
      by (apply subseteq_size; exact Hunion).
    pose proof (sum_nonneg _ Hnn) as Hpos. fold n. lia.
Qed.

Lemma lookup_map {A B : Type} (f : A -> B) (l : list A) i y :
  map f l !! i = Some y <-> exists x, l !! i = Some x /\ y = f x.
Proof.
  change (map f l) with (f <$> l). rewrite list_lookup_fmap.
  destruct (l !! i) as [x |]; simpl; split.
  - intros Heq. injection Heq as <-. eauto.
  - intros (x' & Heq & ->). injection Heq as ->. reflexivity.
  - discriminate.
  - intros (x' & Heq & _). discriminate.
Qed.

Lemma sizes_nonneg {A : Type} (groups : list (list A)) :
  Forall (fun c => 0 <= c) (sizes groups).
Proof. unfold sizes. apply Forall_map, Forall_forall. intros g _. simpl. lia. Qed.


(** X6.  No participant leaks across groups.  In a returned split every
    group lists trials of the dataset in their original order; two trials in
    different groups never have the same participant; every trial of a
    participant of the dataset is in exactly one group; and a trial whose
    participant is not in the participant-id set is in no group. *)
Theorem get_trial_splits_no_leak self (splits : option (list Q)) rng groups :
  rng_valid rng ->
  Z.of_nat (size (participant_ids self)) < 2 ^ 32 ->
  get_trial_splits self splits rng = Ok (TrialSplits groups) ->
  Forall (fun g => g `sublist_of` trials self) groups
  /\ (forall i j g h trial trial',
        i ≠ j -> groups !! i = Some g -> groups !! j = Some h ->
        trial ∈ g -> trial' ∈ h -> participant_id trial ≠ participant_id trial')
  /\ (forall trial, trial ∈ trials self ->
        participant_id trial ∈ participant_ids self ->
        exists i g, groups !! i = Some g /\ trial ∈ g
          /\ forall j h, groups !! j = Some h -> trial ∈ h -> j = i)
  /\ (forall trial g, g ∈ groups -> trial ∈ g ->
        participant_id trial ∈ participant_ids self).
Proof.
  intros Hrng Hn Hrun.
  destruct (get_trial_splits_groups self splits rng groups Hrng Hn Hrun)
    as (ps & -> & Hlen & Hnd & Hunion & Hsizes).
  pose proof (NoDup_concat_pairwise_disjoint ps Hnd) as Hdisj.
  split; [| split; [| split]].
  - apply Forall_map, Forall_forall. intros g _. simpl. apply sublist_filter.
  - intros i j g h trial trial' Hij Hi Hj Hg Hh Heq.
    apply lookup_map in Hi. destruct Hi as (pg & Hi & ->).
    apply lookup_map in Hj. destruct Hj as (ph & Hj & ->).
    apply list_elem_of_filter in Hg. destruct Hg as [Hg _].
    apply list_elem_of_filter in Hh. destruct Hh as [Hh _].
    rewrite <- Heq in Hh. exact (Hdisj i j pg ph Hij Hi Hj _ Hg Hh).
  - intros trial Ht Hp.
    destruct (trials_split_once self ps Hdisj Hunion trial Ht Hp) as (i & g & Hi & Hin & Huniq).
    exists i, (trials_of self g). split; [| split; [exact Hin |]].
    + apply lookup_map. eauto.
    + intros j h Hj Hh. apply lookup_map in Hj. destruct Hj as (ph & Hj & ->).
      exact (Huniq j ph Hj Hh).
  - intros trial g Hg Hin.
    change (map (trials_of self) ps) with (trials_of self <$> ps) in Hg.
    apply list_elem_of_fmap in Hg. destruct Hg as (pg & -> & Hpg).
    apply list_elem_of_filter in Hin. destruct Hin as [Hin _].
    rewrite <- Hunion. apply elem_of_list_to_set, elem_of_concat. eauto.
Qed.




Lemma Qtruncate_zero (f : Q) : Qtruncate (f * inject_Z 0) = 0.
Proof.
  unfold Qtruncate. destruct f as [num den]. simpl.
  rewrite Z.mul_0_r. apply Z.quot_0_l. lia.
Qed.

Lemma astype_int32_zero splits : astype_int32 splits 0 = replicate (length splits) 0.
Proof.
  unfold astype_int32. induction splits as [| f splits IH]; simpl; [reflexivity |].
  rewrite Qtruncate_zero, IH. reflexivity.
Qed.

Lemma sum_replicate_zero k : sum (replicate k 0) = 0.
Proof. induction k as [| k IH]; simpl; [reflexivity | exact IH]. Qed.

Lemma draw_nothing rng k : forall i acc,
  draw_participant_splits rng i (replicate k 0) ∅ acc = Ok (acc ++ replicate k []).
Proof.
  induction k as [| k IH]; intros i acc; simpl.
  - rewrite app_nil_r. reflexivity.
  - rewrite elements_empty. unfold random_choice. simpl.
    replace (∅ ∖ list_to_set (concat (acc ++ [[]])) : gset Z) with (∅ : gset Z)
      by (apply leibniz_equiv; set_solver).
    rewrite IH, <- app_assoc. reflexivity.
Qed.

Lemma trials_of_nobody self : trials_of self [] = [].
Proof.
  unfold trials_of. induction (trials self) as [| trial l IH]; [reflexivity |].
  rewrite filter_cons_False; [exact IH |]. intros Hin. inversion Hin.
Qed.

(** X8.  A dataset without participants, such as one on which [load_trials]
    has not run.  For every [splits] of two or more values that passes the
    validation, [get_trial_splits] returns as many groups as there are split
    values, all of them empty, whatever the random source and whatever trials
    the trial list holds. *)
Theorem get_trial_splits_no_participants self splits rng :
  participant_ids self = ∅ ->
  (2 <= length splits)%nat ->
  (Qabs (1 - np_sum splits) <= 1 # 10000)%Q ->
  get_trial_splits self (Some splits) rng
  = Ok (TrialSplits (replicate (length splits) [])).
Proof.
  intros Hempty Hlen Htol. unfold get_trial_splits. simpl splits_or_default.
  apply Qgtb_false in Htol. rewrite Htol.
  rewrite bool_decide_eq_false_2 by lia.
  rewrite Hempty, size_empty. simpl Z.of_nat.
  unfold participant_counts. rewrite astype_int32_zero, sum_replicate_zero.
  rewrite bool_decide_eq_false_2 by lia.
  rewrite draw_nothing. simpl. f_equal. f_equal.
  clear. induction (length splits) as [| k IH]; simpl; [reflexivity |].
  rewrite trials_of_nobody, IH. reflexivity.
Qed.



End SplitInvariants.

(** ** AscertainTrial: what a load reads, returns and changes *)

Section AscertainLoads.
Import Ascertain.
Context `{PyDatetime} (disk : mat_files).
Implicit Types (self : AscertainTrial) (signal_type : string) (data : ndarray).

(** [_load_ecg_signal_data] is the construction of the start time followed
    by the reading of the samples. *)
Lemma _load_ecg_signal_data_unfold (signal_data_file : matfile) :
  _load_ecg_signal_data signal_data_file
  = bind (recording_start signal_data_file) (fun start_time =>
    bind (getitem signal_data_file "Data_ECG") (fun ecg_data =>
    bind (index ecg_data 0) (fun row0 =>
    bind (take_columns ecg_data
            [0%nat; left_arm_idx (length row0); right_arm_idx (length row0)]) (fun ecg =>
    bind (mapM (fun _ts => convert_to_epoch _ts start_time) (column ecg 0)) (fun ts =>
    Ok [ts; column ecg 1; column ecg 2]))))).
Proof.
  unfold _load_ecg_signal_data, recording_start.
  repeat match goal with
  | |- context [bind ?r _] =>
      lazymatch r with
      | getitem _ "timeECG" => destruct r; simpl; [| reflexivity]
      | index _ _ => destruct r; simpl; [| reflexivity]
      end
  end.
  reflexivity.
Qed.

Lemma index_nth (row : list Q) : forall i,
  (i < length row)%nat -> index row i = Ok (nth i row 0%Q).
Proof.
  unfold index. induction row as [| x row IH]; intros i Hi; simpl in Hi; [lia |].
  destruct i as [| i]; simpl; [reflexivity |]. apply IH. lia.
Qed.

Lemma index_short {A : Type} (row : list A) i :
  (length row <= i)%nat -> index row i = Raise (IndexError "index out of bounds").
Proof.
  intros Hi. unfold index. rewrite (lookup_ge_None_2 row i Hi). reflexivity.
Qed.

Lemma index_inv (row : list Q) i x :
  index row i = Ok x -> (i < length row)%nat /\ x = nth i row 0%Q.
Proof.
  intros Hx. destruct (Nat.lt_ge_cases i (length row)) as [Hlt | Hge].
  - split; [exact Hlt |]. rewrite (index_nth row i Hlt) in Hx. congruence.
  - rewrite (index_short row i Hge) in Hx. discriminate.
Qed.

(** The three chosen columns of an array: they are there if every row is
    long enough, and then they are the columns of the array. *)
Lemma take_columns_ok (a : ndarray) i j k :
  Forall (fun row => (i < length row /\ j < length row /\ k < length row)%nat) a ->
  take_columns a [i; j; k]
  = Ok (map (fun row => [nth i row 0%Q; nth j row 0%Q; nth k row 0%Q]) a).
Proof.
  unfold take_columns. remember (fun row => mapM (index row) [i; j; k]) as f eqn:Hf.
  induction 1 as [| row a (Hi & Hj & Hk) Hrows IH]; simpl.
  - reflexivity.
  - rewrite IH. subst f. simpl.
    rewrite (index_nth row i Hi), (index_nth row j Hj), (index_nth row k Hk).
    reflexivity.
Qed.

Lemma take_columns_inv (a : ndarray) i j k : forall ecg,
  take_columns a [i; j; k] = Ok ecg ->
  Forall (fun row => (i < length row /\ j < length row /\ k < length row)%nat) a
  /\ ecg = map (fun row => [nth i row 0%Q; nth j row 0%Q; nth k row 0%Q]) a.
Proof.
  unfold take_columns. remember (fun row => mapM (index row) [i; j; k]) as f eqn:Hf.
  induction a as [| row a IH]; simpl; intros ecg Hecg.
  - injection Hecg as <-. split; [constructor | reflexivity].
  - destruct (mapM f a) as [ecg' |] eqn:Hrest.
    2:{ destruct (f row); simpl in Hecg; discriminate. }
    rewrite Hf in Hecg. simpl in Hecg.
    destruct (index row i) as [x |] eqn:Hx; simpl in Hecg; [| discriminate].
    destruct (index row j) as [y |] eqn:Hy; simpl in Hecg; [| discriminate].
    destruct (index row k) as [z |] eqn:Hz; simpl in Hecg; [| discriminate].
    injection Hecg as <-.
    apply index_inv in Hx, Hy, Hz.
    destruct Hx as [Hi ->], Hy as [Hj ->], Hz as [Hk ->].
    destruct (IH ecg' eq_refl) as [Hrows ->].
    split; [constructor; auto | reflexivity].
Qed.

Lemma column_of_columns (a : ndarray) i j k :
  column (map (fun row => [nth i row 0%Q; nth j row 0%Q; nth k row 0%Q]) a) 0 = column a i
  /\ column (map (fun row => [nth i row 0%Q; nth j row 0%Q; nth k row 0%Q]) a) 1 = column a j
  /\ column (map (fun row => [nth i row 0%Q; nth j row 0%Q; nth k row 0%Q]) a) 2 = column a k.
Proof.
  unfold column. rewrite !map_map. repeat split.
Qed.

Lemma getitem_inv {V : Type} (d : gmap string V) key v :
  getitem d key = Ok v -> d !! key = Some v.
Proof.
  unfold getitem. destruct (d !! key); intros Heq;
    [injection Heq as ->; reflexivity | discriminate Heq].
Qed.

Lemma getitem_lookup {V : Type} (d : gmap string V) key v :
  d !! key = Some v -> getitem d key = Ok v.
Proof. unfold getitem. intros ->. reflexivity. Qed.

Lemma getitem_missing {V : Type} (d : gmap string V) key :
  d !! key = None -> getitem d key = Raise (KeyError key).
Proof. unfold getitem. intros ->. reflexivity. Qed.

Lemma index_lookup {A : Type} (a : list A) i x :
  index a i = Ok x -> a !! i = Some x.
Proof.
  unfold index. destruct (a !! i); intros Heq;
    [injection Heq as ->; reflexivity | discriminate Heq].
Qed.

(** A returned array, read backwards: where its rows come from. *)
Lemma _load_ecg_signal_data_inv (signal_data_file : matfile) data :
  _load_ecg_signal_data signal_data_file = Ok data ->
  exists start_time ecg_data row0 ts,
    recording_start signal_data_file = Ok start_time
    /\ signal_data_file !! "Data_ECG" = Some ecg_data
    /\ ecg_data !! 0%nat = Some row0
    /\ mapM (fun _ts => convert_to_epoch _ts start_time) (column ecg_data 0) = Ok ts
    /\ data = [ts; column ecg_data (left_arm_idx (length row0));
               column ecg_data (right_arm_idx (length row0))].
Proof.
  rewrite _load_ecg_signal_data_unfold. intros Hload.
  destruct (recording_start signal_data_file) as [start_time | e]; simpl in Hload.
  2:{ discriminate Hload. }
  destruct (getitem signal_data_file "Data_ECG") as [ecg_data | e] eqn:Hget;
    simpl in Hload; [| discriminate Hload].
  pose proof (getitem_inv _ _ _ Hget) as Hdata.
  destruct (index ecg_data 0) as [row0 | e] eqn:Hidx; simpl in Hload;
    [| discriminate Hload].
  pose proof (index_lookup _ _ _ Hidx) as Hrow0.
  destruct (take_columns _ _) as [ecg | e] eqn:Hecg; simpl in Hload; [| discriminate Hload].
  apply take_columns_inv in Hecg. destruct Hecg as [_ ->].
  destruct (column_of_columns ecg_data 0 (left_arm_idx (length row0))
              (right_arm_idx (length row0))) as (H0 & H1 & H2).
  rewrite H0, H1, H2 in Hload.
  destruct (mapM _ (column ecg_data 0)) as [ts | e] eqn:Hts; simpl in Hload;
    [| discriminate Hload].
  injection Hload as <-. exists start_time, ecg_data, row0, ts. auto.
Qed.

(** X10.  What a load can change.  [load_signal_data] never touches the
    identifiers or the registered files of the trial; a load that raises
    leaves the whole trial as it was, and so does every load of a signal type
    other than ['ECG']: the trial changes only in a successful ECG load. *)
Theorem load_signal_data_frame self signal_type :
  base (snd (load_signal_data disk self signal_type)) = base self
  /\ (is_ok (fst (load_signal_data disk self signal_type)) = false ->
      snd (load_signal_data disk self signal_type) = self)
  /\ (signal_type ≠ "ECG" -> snd (load_signal_data disk self signal_type) = self)
  /\ (snd (load_signal_data disk self signal_type) ≠ self ->
      signal_type = "ECG" /\ is_ok (fst (load_signal_data disk self signal_type)) = true).
Proof.
  unfold load_signal_data.
  destruct (getitem _ signal_type) as [file | e]; simpl; [| tauto].
  destruct (loadmat disk file) as [m | e]; simpl; [| tauto].
  case_bool_decide as Hecg.
  - destruct (_load_ecg_signal_data m) as [data | e]; simpl.
    + repeat split; [discriminate | congruence | exact Hecg].
    + tauto.
  - repeat case_bool_decide; simpl; tauto.
Qed.

(** X11.  What a well-formed recording loads to.  If the start time can be
    built, [Data_ECG] has at least one row, all its rows have the same width
    of at least three columns, and every timestamp converts, then
    [_load_ecg_signal_data] returns three rows as long as the recording: the
    converted timestamps of column 0 and the two channel columns, which are
    columns 1 and 2 when the rows have fewer than six entries and columns 4
    and 5 otherwise. *)
Theorem _load_ecg_signal_data_rows (signal_data_file : matfile)
    start_time (ecg_data : ndarray) width ts :
  recording_start signal_data_file = Ok start_time ->
  signal_data_file !! "Data_ECG" = Some ecg_data ->
  ecg_data ≠ [] ->
  Forall (fun row => length row = width) ecg_data ->
  (3 <= width)%nat ->
  mapM (fun _ts => convert_to_epoch _ts start_time) (column ecg_data 0) = Ok ts ->
  _load_ecg_signal_data signal_data_file
  = Ok [ts; column ecg_data (if bool_decide (width < 6)%nat then 1%nat else 4%nat);
        column ecg_data (if bool_decide (width < 6)%nat then 2%nat else 5%nat)]
  /\ length ts = length ecg_data.
Proof.
  intros Hstart Hdata Hne Hrect Hwidth Hts.
  split; [| rewrite (mapM_length _ _ _ Hts); apply column_length].
  rewrite _load_ecg_signal_data_unfold, Hstart. simpl.
  rewrite (getitem_lookup _ _ _ Hdata). simpl.
  assert (Hidx : exists row0, index ecg_data 0 = Ok row0 /\ length row0 = width).
  { destruct ecg_data as [| row0 rows]; [congruence |].
    exists row0. split; [reflexivity | inversion Hrect; assumption]. }
  destruct Hidx as (row0 & Hidx & Hw0). rewrite Hidx. simpl bind. rewrite Hw0.
  rewrite take_columns_ok.
  - simpl bind.
    destruct (column_of_columns ecg_data 0 (left_arm_idx width) (right_arm_idx width))
      as (H0 & H1 & H2).
    rewrite H0, H1, H2, Hts. reflexivity.
  - eapply Forall_impl; [exact Hrect |]. simpl. intros row Hrow. rewrite Hrow.
    unfold left_arm_idx, right_arm_idx. repeat case_bool_decide; lia.
Qed.

(** X12.  The recordings that do not load.  [_load_ecg_signal_data] raises
    [KeyError] when the file has no [timeECG] and, once the start time is
    built, when it has no [Data_ECG]; it raises [IndexError] when [Data_ECG]
    has no rows and when its first row has fewer than three columns. *)
Theorem _load_ecg_signal_data_errors (signal_data_file : matfile) :
  (signal_data_file !! "timeECG" = None ->
     _load_ecg_signal_data signal_data_file = Raise (KeyError "timeECG"))
  /\ (forall start_time, recording_start signal_data_file = Ok start_time ->
        signal_data_file !! "Data_ECG" = None ->
        _load_ecg_signal_data signal_data_file = Raise (KeyError "Data_ECG"))
  /\ (forall start_time, recording_start signal_data_file = Ok start_time ->
        signal_data_file !! "Data_ECG" = Some [] ->
        _load_ecg_signal_data signal_data_file = Raise (IndexError "index out of bounds"))
  /\ (forall start_time row0 rows, recording_start signal_data_file = Ok start_time ->
        signal_data_file !! "Data_ECG" = Some (row0 :: rows) ->
        (length row0 < 3)%nat ->
        _load_ecg_signal_data signal_data_file = Raise (IndexError "index out of bounds")).
Proof.
  split; [| split; [| split]].
  - intros Hnone. unfold _load_ecg_signal_data.
    rewrite (getitem_missing (V := ndarray) _ _ Hnone). reflexivity.
  - intros start_time Hstart Hnone.
    rewrite _load_ecg_signal_data_unfold, Hstart. simpl bind.
    rewrite (getitem_missing (V := ndarray) _ _ Hnone). reflexivity.
  - intros start_time Hstart Hdata.
    rewrite _load_ecg_signal_data_unfold, Hstart. simpl bind.
    rewrite (getitem_lookup (V := ndarray) _ _ _ Hdata). reflexivity.
  - intros start_time row0 rows Hstart Hdata Hlen.
    rewrite _load_ecg_signal_data_unfold, Hstart. simpl bind.
    rewrite (getitem_lookup (V := ndarray) _ _ _ Hdata). simpl bind.
    change (index (row0 :: rows) 0) with (Ok (A := list Q) row0). simpl bind.
    unfold left_arm_idx, right_arm_idx.
    rewrite !bool_decide_eq_true_2 by lia.
    unfold take_columns. simpl.
    destruct row0 as [| x [| y [| z row0]]]; simpl in Hlen; try lia; reflexivity.
Qed.

(** X13.  A loaded ECG signal is never empty.  When [load_signal_data('ECG')]
    returns, the array has at least one column and the cached duration is at
    least 1/256 of a second: a recording without samples raises instead of
    giving the duration 0. *)
Theorem ecg_duration_positive self data self' :
  load_signal_data disk self "ECG" = (Ok data, self') ->
  (1 <= shape1 data)%nat
  /\ exists d, _ecg_signal_duration self' = Some d /\ (1 # 256 <= d)%Q /\ (0 < d)%Q.
Proof.
  unfold load_signal_data. intros Hload.
  destruct (getitem _ "ECG") as [file | e]; [| discriminate].
  destruct (loadmat disk file) as [m | e]; [| discriminate].
  simpl in Hload.
  destruct (_load_ecg_signal_data m) as [data' | e] eqn:Hecg; [| discriminate].
  injection Hload as <- <-.
  destruct (_load_ecg_signal_data_inv m data' Hecg)
    as (start_time & ecg_data & row0 & ts & _ & _ & Hrow0 & Hts & ->).
  apply mapM_length in Hts. rewrite column_length in Hts.
  assert (Hn : (1 <= length ts)%nat).
  { rewrite Hts. destruct ecg_data; [discriminate Hrow0 | simpl; lia]. }
  unfold shape1. simpl. split; [exact Hn |].
  eexists. split; [reflexivity |].
  unfold Qle, Qlt. simpl. lia.
Qed.


End AscertainLoads.

(** ** The further properties on concrete runs *)

Section FurtherRuns.
Import Ascertain Examples.

Lemma preload_leaves_marker_witness :
  covers (world_after (preload (H := counting_impl) (selecting ["ECG"; "GSR"])
                         (world_with ["ECG"])))
         (selecting ["ECG"; "GSR"])
  /\ preload_file (world_after (preload (H := failing_impl) (selecting ["ECG"; "GSR"])
                                  (world_with ["ECG"])))
     = Some (NpyArray ["ECG"]).
Proof.
  split.
  - exact (proj1 (proj1 (preload_leaves_marker (H := counting_impl)
             (selecting ["ECG"; "GSR"]) (world_with ["ECG"])) eq_refl)).
  - exact (proj1 (proj2 (preload_leaves_marker (H := failing_impl)
             (selecting ["ECG"; "GSR"]) (world_with ["ECG"])) _ eq_refl)).
Defined.

Lemma subset_by_computation (xs ys : list string) :
  issubset xs ys = true -> (list_to_set xs : gset string) ⊆ list_to_set ys.
Proof. apply issubset_true. Qed.

Lemma preload_subset_selection_no_op_witness :
  preload (H := counting_impl) (selecting ["ECG"; "GSR"]) fresh_world
  = (Ok tt, world_with ["ECG"; "GSR"],
     [EvMkdir; EvPreloadDataset; EvNpSave ["ECG"; "GSR"]])
  /\ preload (H := counting_impl) (selecting ["GSR"]) (world_with ["ECG"; "GSR"])
     = (Ok tt, world_with ["ECG"; "GSR"], [EvMkdir]).
Proof.
  split; [reflexivity |].
  apply (preload_subset_selection_no_op (H := counting_impl)
           (selecting ["ECG"; "GSR"]) (selecting ["GSR"]) fresh_world _ _
           (subset_by_computation ["GSR"] ["ECG"; "GSR"] eq_refl) eq_refl).
Defined.

Lemma preload_empty_selection_witness :
  signals (Dataset.__init__ None 0 0) = []
  /\ preload (H := counting_impl) (Dataset.__init__ None 0 0) (world_with ["ECG"])
     = (Ok tt, world_with ["ECG"], [EvMkdir])
  /\ EvPreloadDataset ∈ trace (preload (H := counting_impl) (Dataset.__init__ None 0 0)
                                fresh_world).
Proof.
  split; [reflexivity |]. split.
  - exact (proj1 (preload_empty_selection (H := counting_impl)
             (Dataset.__init__ None 0 0) (world_with ["ECG"]) eq_refl) ["ECG"] eq_refl).
  - exact (proj1 (proj2 (preload_empty_selection (H := counting_impl)
             (Dataset.__init__ None 0 0) fresh_world eq_refl) eq_refl)).
Defined.

Lemma preload_repeated_prepares_once_witness :
  preload_alternating (H := counting_impl) (selecting ["ECG"]) (selecting ["ECG"]) 4
    fresh_world
  = (Ok tt, world_with ["ECG"],
     [EvMkdir; EvPreloadDataset; EvNpSave ["ECG"]; EvMkdir; EvMkdir; EvMkdir]).
Proof.
  exact (proj2 (preload_repeated_prepares_once (H := counting_impl)
           (selecting ["ECG"]) fresh_world 3) _ _ eq_refl).
Defined.

Lemma ten_participants_fit : Z.of_nat (size (participant_ids (with_participants 10))) < 2 ^ 32.
Proof. rewrite ten_participants. reflexivity. Qed.

Lemma seventy_thirty_returns :
  exists groups,
    get_trial_splits (with_participants 10) (Some [7 # 10; 3 # 10]%Q) reversed
    = Ok (TrialSplits groups).
Proof. eexists. vm_compute. reflexivity. Qed.


Lemma get_trial_splits_no_leak_witness :
  exists groups,
    get_trial_splits (with_participants 10) (Some [7 # 10; 3 # 10]%Q) reversed
    = Ok (TrialSplits groups)
    /\ Forall (fun g => g `sublist_of` trials (with_participants 10)) groups
    /\ (forall g h trial trial', groups !! 0%nat = Some g -> groups !! 1%nat = Some h ->
          trial ∈ g -> trial' ∈ h -> participant_id trial ≠ participant_id trial').
Proof.
  destruct seventy_thirty_returns as [groups Hrun].
  destruct (get_trial_splits_no_leak (with_participants 10)
              (Some [7 # 10; 3 # 10]%Q) reversed groups reversed_valid
              ten_participants_fit Hrun)
    as (Hsub & Hleak & _).
  exists groups. split; [exact Hrun |]. split; [exact Hsub |].
  intros g h trial trial'. apply (Hleak 0%nat 1%nat). discriminate.
Defined.





Lemma get_trial_splits_no_participants_witness :
  get_trial_splits (Dataset.__init__ (Some ["ECG"]) 0 0) (Some [7 # 10; 3 # 10]%Q) in_order
  = Ok (TrialSplits [[]; []]).
Proof.
  exact (get_trial_splits_no_participants (Dataset.__init__ (Some ["ECG"]) 0 0)
           [7 # 10; 3 # 10]%Q in_order eq_refl ltac:(simpl; lia) seventy_thirty_sum).
Defined.



Lemma load_signal_data_frame_witness :
  snd (load_signal_data (H := recording_clock) ascertain_disk ecg_trial "GSR") = ecg_trial.
Proof.
  apply (proj1 (proj2 (proj2 (load_signal_data_frame (H := recording_clock)
                                ascertain_disk ecg_trial "GSR")))).
  discriminate.
Defined.

Lemma short_recording_start :
  exists start_time : Q,
    recording_start (H := recording_clock) short_recording = Ok start_time.
Proof. eexists. vm_compute. reflexivity. Qed.

Lemma _load_ecg_signal_data_rows_witness :
  exists start_time : Q,
    recording_start (H := recording_clock) short_recording = Ok start_time
    /\ _load_ecg_signal_data (H := recording_clock) short_recording
       = Ok [[start_time + 0 / 1000; start_time + 4 / 1000];
             [1 # 10; 1 # 5]; [1 # 20; - (1 # 20)]]%Q.
Proof.
  destruct short_recording_start as [start_time Hstart].
  exists start_time. split; [exact Hstart |].
  refine (proj1 (_load_ecg_signal_data_rows (H := recording_clock) short_recording
            start_time [[0; 1 # 10; 1 # 20]; [4; 1 # 5; - (1 # 20)]]%Q 3
            [start_time + 0 / 1000; start_time + 4 / 1000]%Q Hstart
            eq_refl _ _ _ _)).
  - intros Hnil. discriminate Hnil.
  - repeat constructor.
  - lia.
  - reflexivity.
Defined.

Lemma empty_recording_start :
  exists start_time : Q,
    recording_start (H := recording_clock) empty_recording = Ok start_time.
Proof. eexists. vm_compute. reflexivity. Qed.

Lemma narrow_recording_start :
  exists start_time : Q,
    recording_start (H := recording_clock) narrow_recording = Ok start_time.
Proof. eexists. vm_compute. reflexivity. Qed.

Lemma _load_ecg_signal_data_errors_witness :
  _load_ecg_signal_data (H := recording_clock) empty_recording
  = Raise (IndexError "index out of bounds")
  /\ _load_ecg_signal_data (H := recording_clock) narrow_recording
     = Raise (IndexError "index out of bounds")
  /\ _load_ecg_signal_data (H := recording_clock) ∅ = Raise (KeyError "timeECG").
Proof.
  destruct empty_recording_start as [start_empty Hempty].
  destruct narrow_recording_start as [start_narrow Hnarrow].
  split; [| split].
  - exact (proj1 (proj2 (proj2 (_load_ecg_signal_data_errors (H := recording_clock)
             empty_recording))) start_empty Hempty eq_refl).
  - exact (proj2 (proj2 (proj2 (_load_ecg_signal_data_errors (H := recording_clock)
             narrow_recording))) start_narrow [0; 1 # 10]%Q [[4; 1 # 5]%Q]
             Hnarrow eq_refl ltac:(simpl; lia)).
  - exact (proj1 (_load_ecg_signal_data_errors (H := recording_clock) ∅) eq_refl).
Defined.

Lemma ecg_duration_positive_witness :
  exists data self',
    load_signal_data (H := recording_clock) ascertain_disk ecg_trial "ECG" = (Ok data, self')
    /\ (1 <= shape1 data)%nat
    /\ exists d, _ecg_signal_duration self' = Some d /\ (0 < d)%Q.
Proof.
  destruct ecg_recording_loads as (data & self' & Hload & _).
  destruct (ecg_duration_positive (H := recording_clock) ascertain_disk
              ecg_trial data self' Hload) as (Hshape & d & Hd & _ & Hpos).
  exists data, self'. split; [exact Hload |]. split; [exact Hshape |].
  exists d. auto.
Defined.

End FurtherRuns.
